(** * Tasks API (src/app.py): a shallow embedding and its checked properties

    The program is a FastAPI application with five routes over one MongoDB
    collection.  The handlers of [src/app.py] are transcribed below as
    functions over an explicit collection state.  The libraries they call
    (bson's [ObjectId], pydantic's field validation, the collection
    operations of the MongoDB driver, FastAPI's request and response
    handling) are modelled in the modules [Bson], [Pydantic], [Mongo] and
    in the route wrappers, as far as the handlers use them.

    Scope of the model.  Python values are the scalars a JSON body or a
    stored task can hold (None, bool, int, str) and ObjectId; floats,
    arrays and nested objects are outside the model.  A Python [str] is a
    [string] whose characters are single bytes.  Requests are handled one
    at a time: every handler runs from start to end on the collection. *)

From Stdlib Require Import ZArith NArith List String Ascii Bool Lia.
From Stdlib.Strings Require Import Byte.
From stdpp Require Import base decidable option list strings gmap fin_maps pretty.

Local Open Scope Z_scope.
Local Open Scope string_scope.
Local Open Scope list_scope.

(** ** Python values *)

(** An ObjectId is its [binary] attribute: the bytes it wraps. *)
Definition ObjectId := list byte.

#[global] Instance byte_eq_dec : EqDecision byte := Byte.byte_eq_dec.

Inductive value :=
| VNone
| VBool (b : bool)
| VInt (z : Z)
| VStr (s : string)
| VObjectId (o : ObjectId).

#[global] Instance value_eq_dec : EqDecision value.
Proof. solve_decision. Defined.

(** A Python dict with string keys. *)
Abbreviation dict := (gmap string value).

(** ** bson.ObjectId *)

Module Bson.

Definition hexdigit (n : N) : ascii :=
  if (n <? 10)%N then ascii_of_N (48 + n) else ascii_of_N (87 + n).

(** [binascii.hexlify]: two lower-case hexadecimal digits per byte. *)
Fixpoint hexlify (bs : list byte) : string :=
  match bs with
  | [] => EmptyString
  | b :: bs' =>
      String (hexdigit (Byte.to_N b / 16))
        (String (hexdigit (Byte.to_N b mod 16)) (hexlify bs'))
  end.

(** Value of a hexadecimal digit, either case. *)
Definition hexval (c : ascii) : option N :=
  let n := N_of_ascii c in
  if ((48 <=? n) && (n <=? 57))%N then Some (n - 48)%N
  else if ((97 <=? n) && (n <=? 102))%N then Some (n - 87)%N
  else if ((65 <=? n) && (n <=? 70))%N then Some (n - 55)%N
  else None.

(** ASCII white space as [bytes.fromhex] skips it: 9 to 13 and 32. *)
Definition isspace (c : ascii) : bool :=
  let n := N_of_ascii c in
  (((9 <=? n) && (n <=? 13)) || (n =? 32))%N.

(** [bytes.fromhex]: white space is skipped between bytes, each byte is
    two adjacent hexadecimal digits; anything else is a ValueError. *)
Fixpoint fromhex (s : string) : option (list byte) :=
  match s with
  | EmptyString => Some []
  | String c rest =>
      if isspace c then fromhex rest
      else
        match rest with
        | EmptyString => None
        | String d rest' =>
            match hexval c, hexval d with
            | Some h, Some l =>
                match Byte.of_N (h * 16 + l), fromhex rest' with
                | Some b, Some bs => Some (b :: bs)
                | _, _ => None
                end
            | _, _ => None
            end
        end
  end.

(** [ObjectId(oid)] for a [str]: exactly 24 characters that
    [bytes.fromhex] accepts; [None] stands for raising [InvalidId].  The
    result has 12 bytes when the 24 characters are all hexadecimal digits. *)
Definition ObjectId_of_str (oid : string) : option ObjectId :=
  if Nat.eqb (String.length oid) 24 then fromhex oid else None.

(** [str(ObjectId)]. *)
Definition str_of_ObjectId (o : ObjectId) : string := hexlify o.

End Bson.

(** ** Python's [str()] on the values of the model *)

Definition py_str (v : value) : string :=
  match v with
  | VNone => "None"
  | VBool true => "True"
  | VBool false => "False"
  | VInt z => pretty z
  | VStr s => s
  | VObjectId o => Bson.str_of_ObjectId o
  end.

(** ** pydantic: field declarations and lax validation of Python input *)

Inductive StatusEnum := done | undone | progress.

#[global] Instance StatusEnum_eq_dec : EqDecision StatusEnum.
Proof. solve_decision. Defined.

Definition StatusEnum_value (s : StatusEnum) : string :=
  match s with
  | done => "done"
  | undone => "undone"
  | progress => "progress"
  end.

Module Pydantic.

(** Keyword arguments of [Field(...)] other than [default] and [alias].
    The validators read the constraint keywords of the library
    ([min_length], [max_length], [ge], [le], [gt], [lt]); a keyword the
    library does not know is kept as extra JSON-schema data and plays no
    part in validation. *)
Inductive kwarg :=
| min_length (n : nat)
| max_length (n : nat)
| ge (z : Z)
| le (z : Z)
| gt (z : Z)
| lt (z : Z)
| extra (name : string) (v : value).

(** [Field(default, alias, **kwargs)]; [default = None] at this level
    means the field is required. *)
Record FieldInfo (A : Type) := Field {
  default : option A;
  alias : option string;
  kwargs : list kwarg
}.
Arguments Field {A} _ _ _.
Arguments default {A} _.
Arguments alias {A} _.
Arguments kwargs {A} _.

Definition str_constraint (s : string) (k : kwarg) : bool :=
  match k with
  | min_length n => Nat.leb n (String.length s)
  | max_length n => Nat.leb (String.length s) n
  | _ => true
  end.

Definition int_constraint (z : Z) (k : kwarg) : bool :=
  match k with
  | ge a => (a <=? z)%Z
  | le a => (z <=? a)%Z
  | gt a => (a <? z)%Z
  | lt a => (z <? a)%Z
  | _ => true
  end.

(** [str]: only a [str] is accepted. *)
Definition validate_str (kw : list kwarg) (v : value) : option string :=
  match v with
  | VStr s => if forallb (str_constraint s) kw then Some s else None
  | _ => None
  end.

Fixpoint digits (s : string) (acc : Z) : option Z :=
  match s with
  | EmptyString => Some acc
  | String c r =>
      let n := N_of_ascii c in
      if ((48 <=? n) && (n <=? 57))%N
      then digits r (10 * acc + Z.of_N (n - 48))
      else None
  end.

(** A decimal numeral with an optional sign.  The library accepts a few
    more spellings of an integer in a [str] (surrounding white space,
    digit grouping); those are not modelled. *)
Definition str_as_int (s : string) : option Z :=
  match s with
  | EmptyString => None
  | String "-" (String _ _ as r) => Z.opp <$> digits r 0
  | String "+" (String _ _ as r) => digits r 0
  | _ => digits s 0
  end.

(** [int] in lax mode: an [int], a [bool], or a [str] holding one. *)
Definition validate_int (kw : list kwarg) (v : value) : option Z :=
  z ← match v with
      | VInt z => Some z
      | VBool b => Some (if b then 1 else 0)
      | VStr s => str_as_int s
      | _ => None
      end;
  if forallb (int_constraint z) kw then Some z else None.

(** [StatusEnum]: the value of one of its members. *)
Definition validate_StatusEnum (kw : list kwarg) (v : value) : option StatusEnum :=
  match v with
  | VStr s =>
      if String.eqb s "done" then Some done
      else if String.eqb s "undone" then Some undone
      else if String.eqb s "progress" then Some progress
      else None
  | _ => None
  end.

(** [PyObjectId = Annotated[str, BeforeValidator(str)]]: the input goes
    through [str()] first, and the result is validated as a [str]. *)
Definition validate_PyObjectId (kw : list kwarg) (v : value) : option string :=
  validate_str kw (VStr (py_str v)).

(** [Optional[T]]: [None] is accepted as it is. *)
Definition validate_Optional {A} (validate : list kwarg -> value -> option A)
    (kw : list kwarg) (v : value) : option (option A) :=
  match v with
  | VNone => Some None
  | _ => Some <$> validate kw v
  end.

(** The input of a field: looked up by its alias when it has one, and,
    with [populate_by_name], by its name when the alias is absent. *)
Definition field_input {A} (populate_by_name : bool) (name : string)
    (f : FieldInfo A) (data : dict) : option value :=
  match alias f with
  | None => data !! name
  | Some a =>
      match data !! a with
      | Some v => Some v
      | None => if populate_by_name then data !! name else None
      end
  end.

(** One field of a model: the input is validated when present; when it
    is absent the default is taken as it is (defaults are not
    validated), and a required field is an error. *)
Definition validate_field {A} (populate_by_name : bool) (name : string)
    (f : FieldInfo A) (validate : list kwarg -> value -> option A)
    (data : dict) : option A :=
  match field_input populate_by_name name f data with
  | Some v => validate (kwargs f) v
  | None => default f
  end.

(** [model_dump(by_alias, exclude)] over the fields of a model, each given
    as (name, alias, value): excluded names are dropped, and the key is the
    alias under [by_alias]. *)
Definition dump_fields (by_alias : bool) (exclude : list string)
    (fields : list (string * string * value)) : dict :=
  list_to_map
    (map (fun f : string * string * value =>
            let '(name, al, v) := f in ((if by_alias then al else name), v))
       (List.filter
          (fun f : string * string * value =>
             let '(name, _, _) := f in negb (existsb (String.eqb name) exclude))
          fields)).

Definition dump_Optional {A} (dump : A -> value) (o : option A) : value :=
  match o with
  | Some a => dump a
  | None => VNone
  end.

End Pydantic.

(** ** The models of src/app.py *)

Module TaskModel.
Import Pydantic.

Record t := Build {
  id : option string;
  title : string;
  description : string;
  priority : Z;
  status : StatusEnum
}.

(** The field declarations, keyword for keyword. *)
Definition id_field : FieldInfo (option string) :=
  Field (Some None) (Some "_id") [].
Definition title_field : FieldInfo string :=
  Field None None [min_length 3; max_length 100].
Definition description_field : FieldInfo string :=
  Field (Some "") None [min_length 3; max_length 500].
Definition priority_field : FieldInfo Z :=
  Field (Some 10) None [extra "min" (VInt 1); extra "max" (VInt 10)].
Definition status_field : FieldInfo StatusEnum :=
  Field None None [].

(** [model_config]: [populate_by_name=True]. *)
Definition populate_by_name : bool := true.

Definition model_validate (data : dict) : option t :=
  i ← validate_field populate_by_name "id" id_field
        (validate_Optional validate_PyObjectId) data;
  ti ← validate_field populate_by_name "title" title_field validate_str data;
  d ← validate_field populate_by_name "description" description_field
        validate_str data;
  p ← validate_field populate_by_name "priority" priority_field validate_int data;
  s ← validate_field populate_by_name "status" status_field
        validate_StatusEnum data;
  Some (Build i ti d p s).

Definition model_dump (by_alias : bool) (exclude : list string) (m : t) : dict :=
  dump_fields by_alias exclude
    [ ("id", "_id", dump_Optional VStr (id m));
      ("title", "title", VStr (title m));
      ("description", "description", VStr (description m));
      ("priority", "priority", VInt (priority m));
      ("status", "status", VStr (StatusEnum_value (status m))) ].
End TaskModel.

Module UpdateTaskModel.
Import Pydantic.

Record t := Build {
  id : option string;
  title : option string;
  description : option string;
  priority : option Z;
  status : option StatusEnum
}.

Definition id_field : FieldInfo (option string) :=
  Field (Some None) (Some "_id") [].
Definition title_field : FieldInfo (option string) :=
  Field (Some None) None [min_length 3; max_length 100].
Definition description_field : FieldInfo (option string) :=
  Field (Some None) None [min_length 3; max_length 500].
Definition priority_field : FieldInfo (option Z) :=
  Field (Some None) None [extra "min" (VInt 1); extra "max" (VInt 10)].
Definition status_field : FieldInfo (option StatusEnum) :=
  Field (Some None) None [].

(** [model_config] does not set [populate_by_name]. *)
Definition populate_by_name : bool := false.

Definition model_validate (data : dict) : option t :=
  i ← validate_field populate_by_name "id" id_field
        (validate_Optional validate_PyObjectId) data;
  ti ← validate_field populate_by_name "title" title_field
        (validate_Optional validate_str) data;
  d ← validate_field populate_by_name "description" description_field
        (validate_Optional validate_str) data;
  p ← validate_field populate_by_name "priority" priority_field
        (validate_Optional validate_int) data;
  s ← validate_field populate_by_name "status" status_field
        (validate_Optional validate_StatusEnum) data;
  Some (Build i ti d p s).

Definition model_dump (by_alias : bool) (exclude : list string) (m : t) : dict :=
  dump_fields by_alias exclude
    [ ("id", "_id", dump_Optional VStr (id m));
      ("title", "title", dump_Optional VStr (title m));
      ("description", "description", dump_Optional VStr (description m));
      ("priority", "priority", dump_Optional VInt (priority m));
      ("status", "status",
        dump_Optional (fun s => VStr (StatusEnum_value s)) (status m)) ].
End UpdateTaskModel.

(** ** Exceptions and results *)

Inductive exn :=
| HTTPException (status_code : Z) (detail : string)
| InvalidId                  (* bson.errors.InvalidId *)
| OverflowError              (* bson: an int beyond 8 bytes *)
| DuplicateKeyError          (* pymongo.errors *)
| WriteError                 (* pymongo.errors: an update of [_id] *)
| ValidationError            (* pydantic, raised inside a handler *)
| RequestValidationError     (* fastapi: the body fails its model *)
| ResponseValidationError.   (* fastapi: the result fails [response_model] *)

Inductive result (A : Type) :=
| Return (a : A)
| Raise (e : exn).
Arguments Return {A} _.
Arguments Raise {A} _.

(** ** The collection: the operations of the driver the handlers call *)

Abbreviation document := (gmap string value).
Abbreviation collection := (list (gmap string value)).

Module Mongo.

(** The filter [{"_id": v}] on one document: same type and same value. *)
Definition matches (v : value) (d : document) : bool :=
  bool_decide (d !! "_id" = Some v).

(** [find_one({"_id": v})]: the first match in store order, or None. *)
Fixpoint find_one (v : value) (c : collection) : option document :=
  match c with
  | [] => None
  | d :: c' => if matches v d then Some d else find_one v c'
  end.

(** BSON holds an int in at most 8 bytes. *)
Definition encodable_value (v : value) : bool :=
  match v with
  | VInt z => ((- 2 ^ 63 <=? z) && (z <? 2 ^ 63))%Z
  | _ => true
  end.

Definition encodable (d : document) : bool :=
  bool_decide (map_Forall (fun _ v => encodable_value v = true) d).

(** [insert_one(doc)]: a document without [_id] gets the ObjectId the
    driver generates, here [fresh]; [_id] is unique in a collection.
    Returns [inserted_id]. *)
Definition insert_one (fresh : ObjectId) (doc : document) (c : collection)
  : result value * collection :=
  let inserted_id :=
    match doc !! "_id" with
    | Some v => v
    | None => VObjectId fresh
    end in
  let d := <["_id" := inserted_id]> doc in
  if negb (encodable d) then (Raise OverflowError, c)
  else
    match find_one inserted_id c with
    | Some _ => (Raise DuplicateKeyError, c)
    | None => (Return inserted_id, c ++ [d])
    end.

(** [find().to_list(n)]. *)
Definition to_list (n : nat) (c : collection) : list document := take n c.

Fixpoint replace_one (v : value) (d' : document) (c : collection) : collection :=
  match c with
  | [] => []
  | d :: c' => if matches v d then d' :: c' else d :: replace_one v d' c'
  end.

(** [find_one_and_update({"_id": v}, {"$set": fields}, AFTER)]: the first
    match gets the fields written over its own and is returned as it is
    after the write; without a match nothing is written and the result is
    None.  [_id] is immutable: a write that would change it is refused.
    (What the store does with an empty field set is not modelled:
    [update_task] calls this with at least one field.) *)
Definition find_one_and_update (v : value) (fields : document) (c : collection)
  : result (option document) * collection :=
  if negb (encodable fields) then (Raise OverflowError, c)
  else
    match find_one v c with
    | None => (Return None, c)
    | Some d =>
        match fields !! "_id" with
        | Some i =>
            if bool_decide (d !! "_id" = Some i)
            then (Return (Some (fields ∪ d)), replace_one v (fields ∪ d) c)
            else (Raise WriteError, c)
        | None => (Return (Some (fields ∪ d)), replace_one v (fields ∪ d) c)
        end
    end.

Fixpoint remove_one (v : value) (c : collection) : collection :=
  match c with
  | [] => []
  | d :: c' => if matches v d then c' else d :: remove_one v c'
  end.

(** [delete_one({"_id": v})]: returns [deleted_count]. *)
Definition delete_one (v : value) (c : collection) : Z * collection :=
  match find_one v c with
  | Some _ => (1, remove_one v c)
  | None => (0, c)
  end.

End Mongo.

Module TaskCollection.
Record t := Build { tasks : list TaskModel.t }.

(** [TaskCollection(tasks=...)]: each element is validated as a
    [TaskModel]; one invalid element fails the whole. *)
Definition model_validate (docs : list document) : option t :=
  Build <$> mapM TaskModel.model_validate docs.
End TaskCollection.

(** ** The handlers of src/app.py *)

Record Response := { status_code : Z; body : option string }.

Definition not_found (id : string) : exn :=
  HTTPException 404 ("Task " +:+ id +:+ " not found").

(** [create_task]: [fresh] is the ObjectId the driver generates for the
    insert. *)
Definition create_task (fresh : ObjectId) (task : TaskModel.t) (c : collection)
  : result (option document) * collection :=
  match Mongo.insert_one fresh (TaskModel.model_dump true ["id"] task) c with
  | (Raise e, c') => (Raise e, c')
  | (Return inserted_id, c') =>
      let created_task := Mongo.find_one inserted_id c' in
      (Return created_task, c')
  end.

Definition list_tasks (c : collection) : result TaskCollection.t :=
  match TaskCollection.model_validate (Mongo.to_list 1000 c) with
  | Some tc => Return tc
  | None => Raise ValidationError
  end.

Definition show_task (id : string) (c : collection) : result document :=
  match Bson.ObjectId_of_str id with
  | None => Raise InvalidId
  | Some o =>
      match Mongo.find_one (VObjectId o) c with
      | Some task => Return task
      | None => Raise (not_found id)
      end
  end.

(** The dict comprehension of [update_task]: the dumped fields that are not
    None. *)
Definition update_fields (task : UpdateTaskModel.t) : dict :=
  filter (fun kv : string * value => kv.2 ≠ VNone)
    (UpdateTaskModel.model_dump true [] task).

Definition update_task (id : string) (task : UpdateTaskModel.t) (c : collection)
  : result document * collection :=
  let task := update_fields task in
  if Nat.leb 1 (size task) then
    match Bson.ObjectId_of_str id with
    | None => (Raise InvalidId, c)
    | Some o =>
        match Mongo.find_one_and_update (VObjectId o) task c with
        | (Raise e, c') => (Raise e, c')
        | (Return (Some update_result), c') => (Return update_result, c')
        | (Return None, c') => (Raise (not_found id), c')
        end
    end
  else
    (* The update is empty, but we should still return the matching document *)
    match Mongo.find_one (VStr id) c with
    | Some existing_task => (Return existing_task, c)
    | None => (Raise (not_found id), c)
    end.

Definition delete_task (id : string) (c : collection) : result Response * collection :=
  match Bson.ObjectId_of_str id with
  | None => (Raise InvalidId, c)
  | Some o =>
      let '(deleted_count, c') := Mongo.delete_one (VObjectId o) c in
      if (deleted_count =? 1)%Z
      then (Return {| status_code := 204; body := None |}, c')
      else (Raise (not_found id), c')
  end.

(** ** The routes: what FastAPI does around each handler

    The body is validated against the model of the handler's parameter
    before the handler runs; the value the handler returns is validated
    against [response_model] and serialised under the field names
    ([response_model_by_alias=False]); an [HTTPException] becomes a response
    with its status code, a body that fails validation a 422, and every
    other exception is unhandled: the server answers 500. *)

Inductive content :=
| JSONTask (t : TaskModel.t)
| JSONUpdateTask (t : UpdateTaskModel.t)
| JSONTaskCollection (tc : TaskCollection.t)
| JSONDetail (detail : string)
| JSONValidationErrors
| NoContent
| InternalServerError.

Record HTTPResponse := { status : Z; content_of : content }.

Definition exception_response (e : exn) : HTTPResponse :=
  match e with
  | HTTPException code detail => {| status := code; content_of := JSONDetail detail |}
  | RequestValidationError => {| status := 422; content_of := JSONValidationErrors |}
  | _ => {| status := 500; content_of := InternalServerError |}
  end.

(** 4xx: the request was at fault; 5xx: the server was. *)
Definition client_error (r : HTTPResponse) : Prop := (400 <= status r < 500)%Z.
Definition server_fault (r : HTTPResponse) : Prop := (500 <= status r < 600)%Z.

Module Routes.

(** POST /tasks/ : [response_model=TaskModel], 201. *)
Definition POST_tasks (fresh : ObjectId) (body : dict) (c : collection)
  : HTTPResponse * collection :=
  match TaskModel.model_validate body with
  | None => (exception_response RequestValidationError, c)
  | Some task =>
      match create_task fresh task c with
      | (Raise e, c') => (exception_response e, c')
      | (Return r, c') =>
          match r ≫= TaskModel.model_validate with
          | Some t => ({| status := 201; content_of := JSONTask t |}, c')
          | None => (exception_response ResponseValidationError, c')
          end
      end
  end.

(** GET /tasks/ : [response_model=TaskCollection]. *)
Definition GET_tasks (c : collection) : HTTPResponse * collection :=
  match list_tasks c with
  | Raise e => (exception_response e, c)
  | Return tc => ({| status := 200; content_of := JSONTaskCollection tc |}, c)
  end.

(** GET /tasks/{id} : [response_model=TaskModel]. *)
Definition GET_task (id : string) (c : collection) : HTTPResponse * collection :=
  match show_task id c with
  | Raise e => (exception_response e, c)
  | Return r =>
      match TaskModel.model_validate r with
      | Some t => ({| status := 200; content_of := JSONTask t |}, c)
      | None => (exception_response ResponseValidationError, c)
      end
  end.

(** PUT /tasks/{id} : [response_model=UpdateTaskModel]. *)
Definition PUT_task (id : string) (body : dict) (c : collection)
  : HTTPResponse * collection :=
  match UpdateTaskModel.model_validate body with
  | None => (exception_response RequestValidationError, c)
  | Some task =>
      match update_task id task c with
      | (Raise e, c') => (exception_response e, c')
      | (Return r, c') =>
          match UpdateTaskModel.model_validate r with
          | Some t => ({| status := 200; content_of := JSONUpdateTask t |}, c')
          | None => (exception_response ResponseValidationError, c')
          end
      end
  end.

(** DELETE /tasks/{id} : the handler returns the response itself. *)
Definition DELETE_task (id : string) (c : collection) : HTTPResponse * collection :=
  match delete_task id c with
  | (Raise e, c') => (exception_response e, c')
  | (Return r, c') =>
      ({| status := status_code r;
          content_of := match body r with
                        | None => NoContent
                        | Some s => JSONDetail s
                        end |}, c')
  end.

End Routes.

(** The application: a request is served by the route of its method and
    path.  A request here is one the router hands to a route, with its body,
    if it has one, already read as a JSON object; what the framework answers
    before that (no route for the method and path, a body it cannot read) is
    outside.  A POST carries the ObjectId the driver generates for it. *)
Inductive request :=
| PostTasks (fresh : ObjectId) (body : dict)
| GetTasks
| GetTask (id : string)
| PutTask (id : string) (body : dict)
| DeleteTask (id : string).

Definition tasks_app (r : request) (c : collection) : HTTPResponse * collection :=
  match r with
  | PostTasks fresh body => Routes.POST_tasks fresh body c
  | GetTasks => Routes.GET_tasks c
  | GetTask id => Routes.GET_task id c
  | PutTask id body => Routes.PUT_task id body c
  | DeleteTask id => Routes.DELETE_task id c
  end.

(** The collection after a sequence of requests. *)
Definition run (rs : list request) (c : collection) : collection :=
  foldl (fun c r => (tasks_app r c).2) c rs.

(** ** Vocabulary of the statements *)

(** The responses the routes give. *)
Definition created (t : TaskModel.t) : HTTPResponse :=
  {| status := 201; content_of := JSONTask t |}.
Definition ok_task (t : TaskModel.t) : HTTPResponse :=
  {| status := 200; content_of := JSONTask t |}.
Definition no_content : HTTPResponse :=
  {| status := 204; content_of := NoContent |}.
Definition not_found_response (id : string) : HTTPResponse :=
  {| status := 404; content_of := JSONDetail ("Task " +:+ id +:+ " not found") |}.
Definition validation_error : HTTPResponse :=
  {| status := 422; content_of := JSONValidationErrors |}.
Definition internal_server_error : HTTPResponse :=
  {| status := 500; content_of := InternalServerError |}.

(** The response of PUT /tasks/{id} for the document the handler returns. *)
Definition update_response (d : document) : HTTPResponse :=
  match UpdateTaskModel.model_validate d with
  | Some t => {| status := 200; content_of := JSONUpdateTask t |}
  | None => internal_server_error
  end.

(** The number of records in a response of GET /tasks/. *)
Definition records_returned (r : HTTPResponse) : nat :=
  match content_of r with
  | JSONTaskCollection tc => length (TaskCollection.tasks tc)
  | _ => 0%nat
  end.

(** The document [create_task] hands to [insert_one], and the one stored. *)
Definition dumped_task (task : TaskModel.t) : document :=
  <["title" := VStr (TaskModel.title task)]>
  (<["description" := VStr (TaskModel.description task)]>
  (<["priority" := VInt (TaskModel.priority task)]>
  (<["status" := VStr (StatusEnum_value (TaskModel.status task))]> ∅))).

Definition created_document (fresh : ObjectId) (task : TaskModel.t) : document :=
  <["_id" := VObjectId fresh]> (dumped_task task).

(** A task as it is read back from the document stored for it. *)
Definition with_id (fresh : ObjectId) (task : TaskModel.t) : TaskModel.t :=
  TaskModel.Build (Some (Bson.str_of_ObjectId fresh)) (TaskModel.title task)
    (TaskModel.description task) (TaskModel.priority task) (TaskModel.status task).

Definition with_description (s : string) (task : TaskModel.t) : TaskModel.t :=
  TaskModel.Build (TaskModel.id task) (TaskModel.title task) s
    (TaskModel.priority task) (TaskModel.status task).

(** A task with the fields of an update written over its own. *)
Definition apply_update (u : UpdateTaskModel.t) (t : TaskModel.t) : TaskModel.t :=
  TaskModel.Build (TaskModel.id t)
    (match UpdateTaskModel.title u with Some s => s | None => TaskModel.title t end)
    (match UpdateTaskModel.description u with
     | Some s => s
     | None => TaskModel.description t
     end)
    (match UpdateTaskModel.priority u with Some p => p | None => TaskModel.priority t end)
    (match UpdateTaskModel.status u with Some s => s | None => TaskModel.status t end).

Definition without_id (task : TaskModel.t) : TaskModel.t :=
  TaskModel.Build None (TaskModel.title task) (TaskModel.description task)
    (TaskModel.priority task) (TaskModel.status task).

(** The items of [UpdateTaskModel.model_dump(by_alias=True)]. *)
Definition dumped_update (task : UpdateTaskModel.t) : dict :=
  <["_id" := Pydantic.dump_Optional VStr (UpdateTaskModel.id task)]>
  (<["title" := Pydantic.dump_Optional VStr (UpdateTaskModel.title task)]>
  (<["description" := Pydantic.dump_Optional VStr (UpdateTaskModel.description task)]>
  (<["priority" := Pydantic.dump_Optional VInt (UpdateTaskModel.priority task)]>
  (<["status" := Pydantic.dump_Optional (fun s => VStr (StatusEnum_value s))
                   (UpdateTaskModel.status task)]> ∅)))).

(** [_id] is unique in a collection. *)
Definition unique_ids (c : collection) : Prop :=
  NoDup (map (fun d : document => d !! "_id") c).

(** Every document of the collection has an ObjectId as its [_id]: so it
    is in a collection filled through [create_task]. *)
Definition ObjectId_keys (c : collection) : Prop :=
  Forall (fun d : document => exists o, d !! "_id" = Some (VObjectId o)) c.

(** Both, as the routes keep them. *)
Definition well_keyed (c : collection) : Prop := unique_ids c /\ ObjectId_keys c.

(** ** Example data *)

Definition oid1 : ObjectId :=
  [x65; x4f; x1a; x2b; x3c; x4d; x5e; x6f; x70; x81; x92; xa3].
Definition oid1_str : string := "654f1a2b3c4d5e6f708192a3".
Definition oid2 : ObjectId :=
  [x65; x4f; x1a; x2b; x3c; x4d; x5e; x6f; x70; x81; x92; xa4].
Definition oid2_str : string := "654f1a2b3c4d5e6f708192a4".

(** Request bodies. *)
Definition buy_milk : dict :=
  {[ "title" := VStr "Buy milk"; "status" := VStr "undone" ]}.
Definition buy_milk' : dict :=
  {[ "title" := VStr "Buy milk"; "description" := VStr "Two litres";
     "status" := VStr "undone" ]}.
Definition with_priority (p : Z) : dict := <["priority" := VInt p]> buy_milk'.
Definition short_title : dict :=
  {[ "title" := VStr "ab"; "status" := VStr "done" ]}.
Definition short_description : dict := <["description" := VStr "ab"]> buy_milk.
Definition priority_5 : dict := {[ "priority" := VInt 5 ]}.
Definition only_id : dict := {[ "_id" := VStr "abc" ]}.

Definition with_client_id : dict :=
  <["_id" := VStr "abc"]> (<["id" := VInt 7]> (<["owner" := VStr "me"]> buy_milk')).
Definition null_status : dict := <["status" := VNone]> buy_milk'.
Definition bad_status : dict := <["status" := VStr "Done"]> buy_milk'.
Definition long_title : string :=
  "aaaaaaaaaaaaaaaaaaaaaaaaaaaaaaaaaaaaaaaaaaaaaaaaaaaaaaaaaaaaaaaaaaaaaaaaaaaaaaaaaaaaaaaaaaaaaaaaaaaaa".
Definition too_long_title : dict := <["title" := VStr long_title]> buy_milk'.

(** The tasks validated from the first two bodies. *)
Definition milk_task : TaskModel.t := TaskModel.Build None "Buy milk" "" 10 undone.
Definition milk_task' : TaskModel.t :=
  TaskModel.Build None "Buy milk" "Two litres" 10 undone.

Definition short_title_update : dict := {[ "title" := VStr "ab" ]}.
Definition done_update : dict :=
  {[ "status" := VStr "done"; "title" := VStr "Buy oat milk" ]}.
Definition done_update_task : UpdateTaskModel.t :=
  UpdateTaskModel.Build None (Some "Buy oat milk") None None (Some done).

(** A stored task whose description is the empty default. *)
Definition unfit_document : document := created_document oid2 milk_task.

(** A collection holding one task, created through the route. *)
Definition one_task : collection := (Routes.POST_tasks oid1 buy_milk' []).2.

(** A thousand ObjectIds, the number in the last two bytes, and the
    collection of the thousand creates that use them. *)
Definition byte_of_nat (n : nat) : byte := default x00 (Byte.of_N (N.of_nat n)).
Definition oid_of_nat (i : nat) : ObjectId :=
  replicate 10 x00 ++ [byte_of_nat (i / 256); byte_of_nat (i mod 256)].
Definition thousand_creates : list request :=
  map (fun i => PostTasks (oid_of_nat i) buy_milk') (seq 0 1000).
Definition thousand_tasks : collection :=
  map (fun i => created_document (oid_of_nat i) milk_task') (seq 0 1000).

(** * Properties *)

(** ** ObjectId and its string form *)

Section BsonFacts.
Import Bson.

Lemma hex_of_byte (b : byte) :
  let hi := (Byte.to_N b / 16)%N in
  let lo := (Byte.to_N b mod 16)%N in
  isspace (hexdigit hi) = false /\
  hexval (hexdigit hi) = Some hi /\
  hexval (hexdigit lo) = Some lo /\
  Byte.of_N (hi * 16 + lo) = Some b.
Proof. destruct b; vm_compute; auto. Qed.

Lemma fromhex_pair (c d : ascii) (rest : string) :
  isspace c = false ->
  fromhex (String c (String d rest)) =
  match hexval c, hexval d with
  | Some h, Some l =>
      match Byte.of_N (h * 16 + l), fromhex rest with
      | Some b, Some bs => Some (b :: bs)
      | _, _ => None
      end
  | _, _ => None
  end.
Proof. intros H. simpl. rewrite H. reflexivity. Qed.

Lemma fromhex_hexlify (o : list byte) : fromhex (hexlify o) = Some o.
Proof.
  induction o as [|b o IH]; [reflexivity|].
  destruct (hex_of_byte b) as (Hs & Hh & Hl & Hb).
  cbn [hexlify]. rewrite fromhex_pair by exact Hs.
  rewrite Hh, Hl, Hb, IH. reflexivity.
Qed.

Lemma length_hexlify (o : list byte) :
  String.length (hexlify o) = (2 * length o)%nat.
Proof. induction o as [|b o IH]; cbn [hexlify String.length length]; lia. Qed.

(** The string form of a 12-byte ObjectId parses back to it. *)
Lemma ObjectId_of_str_of_ObjectId (o : ObjectId) :
  length o = 12%nat -> ObjectId_of_str (str_of_ObjectId o) = Some o.
Proof.
  intros H. unfold ObjectId_of_str, str_of_ObjectId.
  rewrite length_hexlify, H. cbn [Nat.mul Nat.add Nat.eqb].
  apply fromhex_hexlify.
Qed.

Lemma str_of_ObjectId_nonempty (o : ObjectId) :
  length o = 12%nat -> str_of_ObjectId o <> "".
Proof.
  intros H E. apply (f_equal String.length) in E.
  unfold str_of_ObjectId in E. rewrite length_hexlify, H in E. discriminate.
Qed.
End BsonFacts.

(** ** The collection operations *)

Section MongoFacts.
Import Mongo.

Lemma matches_true v (d : document) : matches v d = true <-> d !! "_id" = Some v.
Proof. unfold matches. apply bool_decide_eq_true. Qed.

Lemma matches_false v (d : document) : matches v d = false <-> d !! "_id" <> Some v.
Proof. unfold matches. apply bool_decide_eq_false. Qed.

Lemma find_one_Some v (c : collection) d :
  find_one v c = Some d -> d ∈ c /\ d !! "_id" = Some v.
Proof.
  induction c as [|x c IH]; cbn [find_one]; [discriminate|].
  destruct (matches v x) eqn:E.
  - intros [= ->]. split; [left|]. by apply matches_true.
  - intros H. destruct (IH H). split; [by right|done].
Qed.

Lemma find_one_None v (c : collection) :
  find_one v c = None <-> Some v ∉ map (fun d : document => d !! "_id") c.
Proof.
  induction c as [|x c IH]; cbn [find_one map].
  - split; [intros _; apply not_elem_of_nil|done].
  - rewrite not_elem_of_cons. destruct (matches v x) eqn:E.
    + apply matches_true in E. split; [discriminate|]. intros [H _]. by rewrite E in H.
    + apply matches_false in E. rewrite IH. split; [|tauto].
      intros H. split; [congruence|done].
Qed.

Lemma find_one_app v (c : collection) (d : document) :
  find_one v (c ++ [d]) =
  match find_one v c with
  | Some x => Some x
  | None => if matches v d then Some d else None
  end.
Proof.
  induction c as [|x c IH]; cbn [find_one app]; [reflexivity|].
  destruct (matches v x); [reflexivity|exact IH].
Qed.

Lemma length_replace_one v d' (c : collection) :
  length (replace_one v d' c) = length c.
Proof.
  induction c as [|x c IH]; cbn [replace_one length]; [reflexivity|].
  destruct (matches v x); cbn [length]; congruence.
Qed.

Lemma find_one_replace_one v (d d' : document) (c : collection) :
  find_one v c = Some d -> d' !! "_id" = Some v ->
  find_one v (replace_one v d' c) = Some d'.
Proof.
  intros H Hd'. induction c as [|x c IH]; cbn [find_one replace_one] in *; [discriminate|].
  destruct (matches v x) eqn:E; cbn [find_one].
  - apply matches_true in Hd'. by rewrite Hd'.
  - rewrite E. by apply IH.
Qed.

Lemma find_one_replace_one_ne v w (d' : document) (c : collection) :
  v <> w -> d' !! "_id" = Some v ->
  find_one w (replace_one v d' c) = find_one w c.
Proof.
  intros Hne Hd'. induction c as [|x c IH]; cbn [find_one replace_one]; [reflexivity|].
  destruct (matches v x) eqn:E; cbn [find_one].
  - apply matches_true in E.
    assert (matches w d' = false) as -> by (apply matches_false; congruence).
    assert (matches w x = false) as -> by (apply matches_false; congruence).
    reflexivity.
  - destruct (matches w x); [reflexivity|exact IH].
Qed.

Lemma find_one_remove_one v (c : collection) :
  unique_ids c -> find_one v (remove_one v c) = None.
Proof.
  unfold unique_ids. induction c as [|x c IH]; cbn [remove_one map]; [reflexivity|].
  intros Hnd. apply NoDup_cons in Hnd as [Hx Hnd].
  destruct (matches v x) eqn:E.
  - apply matches_true in E. apply find_one_None. by rewrite <- E.
  - cbn [find_one]. rewrite E. by apply IH.
Qed.

Lemma find_one_remove_one_ne v w (c : collection) :
  v <> w -> find_one w (remove_one v c) = find_one w c.
Proof.
  intros Hne. induction c as [|x c IH]; cbn [find_one remove_one]; [reflexivity|].
  destruct (matches v x) eqn:E; cbn [find_one].
  - apply matches_true in E.
    assert (matches w x = false) as -> by (apply matches_false; congruence).
    reflexivity.
  - destruct (matches w x); [reflexivity|exact IH].
Qed.

(** A string never matches an ObjectId key. *)
Lemma find_one_VStr_ObjectId_keys (s : string) (c : collection) :
  ObjectId_keys c -> find_one (VStr s) c = None.
Proof.
  unfold ObjectId_keys. induction 1 as [|x c [o Ho] _ IH]; cbn [find_one]; [reflexivity|].
  assert (matches (VStr s) x = false) as -> by (apply matches_false; congruence).
  exact IH.
Qed.
End MongoFacts.

(** ** Validation *)

Section ValidationFacts.
Import Pydantic.

(** A validated [TaskModel] is the five validated fields. *)
Lemma TaskModel_validate_Some (data : dict) (t : TaskModel.t) :
  TaskModel.model_validate data = Some t <->
  validate_field true "id" TaskModel.id_field
    (validate_Optional validate_PyObjectId) data = Some (TaskModel.id t) /\
  validate_field true "title" TaskModel.title_field validate_str data
    = Some (TaskModel.title t) /\
  validate_field true "description" TaskModel.description_field validate_str data
    = Some (TaskModel.description t) /\
  validate_field true "priority" TaskModel.priority_field validate_int data
    = Some (TaskModel.priority t) /\
  validate_field true "status" TaskModel.status_field validate_StatusEnum data
    = Some (TaskModel.status t).
Proof.
  unfold TaskModel.model_validate, TaskModel.populate_by_name.
  destruct t as [i ti d p s]; cbn [TaskModel.id TaskModel.title
    TaskModel.description TaskModel.priority TaskModel.status].
  repeat match goal with
         | |- context [validate_field ?b ?n ?f ?v data] =>
             destruct (validate_field b n f v data); cbn [mbind option_bind]
         end; split; try (intros [= ]); try (intros (? & ? & ? & ? & ?));
    subst; try discriminate; try congruence; auto.
Qed.

Lemma UpdateTaskModel_validate_Some (data : dict) (t : UpdateTaskModel.t) :
  UpdateTaskModel.model_validate data = Some t <->
  validate_field false "id" UpdateTaskModel.id_field
    (validate_Optional validate_PyObjectId) data = Some (UpdateTaskModel.id t) /\
  validate_field false "title" UpdateTaskModel.title_field
    (validate_Optional validate_str) data = Some (UpdateTaskModel.title t) /\
  validate_field false "description" UpdateTaskModel.description_field
    (validate_Optional validate_str) data = Some (UpdateTaskModel.description t) /\
  validate_field false "priority" UpdateTaskModel.priority_field
    (validate_Optional validate_int) data = Some (UpdateTaskModel.priority t) /\
  validate_field false "status" UpdateTaskModel.status_field
    (validate_Optional validate_StatusEnum) data = Some (UpdateTaskModel.status t).
Proof.
  unfold UpdateTaskModel.model_validate, UpdateTaskModel.populate_by_name.
  destruct t as [i ti d p s]; cbn [UpdateTaskModel.id UpdateTaskModel.title
    UpdateTaskModel.description UpdateTaskModel.priority UpdateTaskModel.status].
  repeat match goal with
         | |- context [validate_field ?b ?n ?f ?v data] =>
             destruct (validate_field b n f v data); cbn [mbind option_bind]
         end; split; try (intros [= ]); try (intros (? & ? & ? & ? & ?));
    subst; try discriminate; try congruence; auto.
Qed.

(** A field without alias reads the key of its name. *)
Lemma validate_field_no_alias {A} b name (d : option A) (kw : list kwarg)
    (validate : list kwarg -> value -> option A) (data : dict) :
  validate_field b name (Field d None kw) validate data =
  match data !! name with
  | Some v => validate kw v
  | None => d
  end.
Proof. reflexivity. Qed.

Lemma validate_str_length (s s' : string) (lo hi : nat) :
  validate_str [min_length lo; max_length hi] (VStr s) = Some s' <->
  s' = s /\ (lo <= String.length s <= hi)%nat.
Proof.
  unfold validate_str. cbn [forallb str_constraint].
  destruct (Nat.leb_spec lo (String.length s)), (Nat.leb_spec (String.length s) hi);
    cbn [andb]; split; try (intros [= <-]); try (intros [-> ?]);
    try discriminate; try lia; auto.
Qed.

(** The keywords of [priority] constrain nothing: every int passes. *)
Lemma validate_int_priority (z : Z) :
  validate_int (kwargs TaskModel.priority_field) (VInt z) = Some z.
Proof. reflexivity. Qed.

(** An [id] input other than None becomes its string form. *)
Lemma validate_id_not_None (v : value) :
  v <> VNone ->
  validate_Optional validate_PyObjectId [] v = Some (Some (py_str v)).
Proof. destruct v; [done|reflexivity..]. Qed.

Lemma TaskModel_title_too_short (data : dict) (s : string) :
  data !! "title" = Some (VStr s) -> (String.length s < 3)%nat ->
  TaskModel.model_validate data = None.
Proof.
  intros Ht Hs. destruct (TaskModel.model_validate data) as [t|] eqn:E; [|reflexivity].
  apply TaskModel_validate_Some in E as (_ & E & _).
  unfold TaskModel.title_field in E. rewrite validate_field_no_alias, Ht in E.
  apply validate_str_length in E. lia.
Qed.

Lemma TaskModel_description_too_short (data : dict) (s : string) :
  data !! "description" = Some (VStr s) -> (String.length s < 3)%nat ->
  TaskModel.model_validate data = None.
Proof.
  intros Ht Hs. destruct (TaskModel.model_validate data) as [t|] eqn:E; [|reflexivity].
  apply TaskModel_validate_Some in E as (_ & _ & E & _).
  unfold TaskModel.description_field in E. rewrite validate_field_no_alias, Ht in E.
  apply validate_str_length in E. lia.
Qed.

Lemma TaskModel_description_default (data : dict) (t : TaskModel.t) :
  data !! "description" = None -> TaskModel.model_validate data = Some t ->
  TaskModel.description t = "".
Proof.
  intros Hd E. apply TaskModel_validate_Some in E as (_ & _ & E & _).
  unfold TaskModel.description_field in E. rewrite validate_field_no_alias, Hd in E.
  congruence.
Qed.
(** Leaving the description out changes nothing but the description: the
    body validates exactly when it does with a description of valid length
    put in, and the validated description is then the default. *)
Lemma TaskModel_validate_without_description (data : dict) (s : string) :
  data !! "description" = None -> (3 <= String.length s <= 500)%nat ->
  TaskModel.model_validate data =
  with_description "" <$> TaskModel.model_validate (<["description" := VStr s]> data).
Proof.
  intros Hd Hs. unfold TaskModel.model_validate.
  assert (forall A (f : FieldInfo A) validate name,
            name <> "description" -> alias f <> Some "description" ->
            validate_field true name f validate (<["description" := VStr s]> data)
            = validate_field true name f validate data) as Hother.
  { intros A f validate name Hn Ha. unfold validate_field, field_input.
    destruct (alias f) as [a|].
    - rewrite !lookup_insert_ne by congruence. reflexivity.
    - rewrite lookup_insert_ne by congruence. reflexivity. }
  unfold TaskModel.populate_by_name.
  rewrite (Hother _ TaskModel.id_field), (Hother _ TaskModel.title_field),
    (Hother _ TaskModel.priority_field), (Hother _ TaskModel.status_field)
    by (cbn; congruence).
  assert (validate_field true "description" TaskModel.description_field validate_str
            (<["description" := VStr s]> data) = Some s) as ->.
  { unfold TaskModel.description_field.
    rewrite validate_field_no_alias, lookup_insert_eq. by apply validate_str_length. }
  assert (validate_field true "description" TaskModel.description_field validate_str data
          = Some "") as ->.
  { unfold TaskModel.description_field. by rewrite validate_field_no_alias, Hd. }
  repeat match goal with
         | |- context [validate_field ?b ?n ?f ?v data] =>
             destruct (validate_field b n f v data); cbn
         end; reflexivity.
Qed.
End ValidationFacts.

(** ** create_task *)

Section CreateFacts.
Import Mongo.

Lemma TaskModel_dump (task : TaskModel.t) :
  TaskModel.model_dump true ["id"] task = dumped_task task.
Proof. reflexivity. Qed.

Lemma dumped_task_no_id (task : TaskModel.t) :
  dumped_task task !! "_id" = None /\ dumped_task task !! "id" = None.
Proof. split; reflexivity. Qed.

Lemma created_document_lookup (fresh : ObjectId) (task : TaskModel.t) :
  let d := created_document fresh task in
  d !! "_id" = Some (VObjectId fresh) /\
  d !! "title" = Some (VStr (TaskModel.title task)) /\
  d !! "description" = Some (VStr (TaskModel.description task)) /\
  d !! "priority" = Some (VInt (TaskModel.priority task)) /\
  d !! "status" = Some (VStr (StatusEnum_value (TaskModel.status task))).
Proof. repeat split; reflexivity. Qed.

Lemma encodable_created_document (fresh : ObjectId) (task : TaskModel.t) :
  (- 2 ^ 63 <= TaskModel.priority task < 2 ^ 63)%Z ->
  encodable (created_document fresh task) = true.
Proof.
  intros Hp. unfold encodable. apply bool_decide_eq_true.
  unfold created_document, dumped_task.
  repeat (apply map_Forall_insert_2; [|]); try reflexivity; [|apply map_Forall_empty].
  cbn [encodable_value]. apply andb_true_iff. split; [apply Z.leb_le|apply Z.ltb_lt]; lia.
Qed.

(** With an unused ObjectId and a priority that fits 8 bytes, the insert
    succeeds and the handler returns the document it stored. *)
Lemma create_task_inserts (fresh : ObjectId) (task : TaskModel.t) (c : collection) :
  (- 2 ^ 63 <= TaskModel.priority task < 2 ^ 63)%Z ->
  find_one (VObjectId fresh) c = None ->
  create_task fresh task c =
    (Return (Some (created_document fresh task)), c ++ [created_document fresh task]).
Proof.
  intros Hp Hfresh. unfold create_task, insert_one.
  rewrite TaskModel_dump. destruct (dumped_task_no_id task) as [-> _].
  fold (created_document fresh task).
  rewrite encodable_created_document by exact Hp. cbn [negb].
  rewrite Hfresh, find_one_app, Hfresh.
  assert (matches (VObjectId fresh) (created_document fresh task) = true) as ->
    by (apply matches_true; reflexivity).
  reflexivity.
Qed.
End CreateFacts.

(** ** The claims about create *)

(** C7: a create body whose title is a string of fewer than 3 characters is
    answered 422, and the collection is left as it was: nothing is
    inserted. *)
Theorem create_short_title_rejected (fresh : ObjectId) (body : dict) (s : string)
    (c : collection) :
  body !! "title" = Some (VStr s) -> (String.length s < 3)%nat ->
  Routes.POST_tasks fresh body c = (validation_error, c).
Proof.
  intros Ht Hs. unfold Routes.POST_tasks.
  rewrite (TaskModel_title_too_short body s Ht Hs). reflexivity.
Qed.

Lemma create_short_title_rejected_witness :
  Routes.POST_tasks oid1 short_title [] = (validation_error, []).
Proof.
  apply (create_short_title_rejected oid1 short_title "ab" []);
    [reflexivity | vm_compute; lia].
Defined.

(** C3: the [min] and [max] keywords of [priority] are not constraints.
    Every int passes the validation of the field, and a create with priority
    0 or 100 is answered 201 with that priority, which is also the priority
    of the stored document. *)
Theorem priority_bounds_not_enforced :
  (forall p : Z,
     Pydantic.validate_int (Pydantic.kwargs TaskModel.priority_field) (VInt p) = Some p) /\
  (exists t d,
     Routes.POST_tasks oid1 (with_priority 100) [] =
       ({| status := 201; content_of := JSONTask t |}, [d]) /\
     TaskModel.priority t = 100%Z /\ d !! "priority" = Some (VInt 100)) /\
  (exists t d,
     Routes.POST_tasks oid1 (with_priority 0) [] =
       ({| status := 201; content_of := JSONTask t |}, [d]) /\
     TaskModel.priority t = 0%Z /\ d !! "priority" = Some (VInt 0)).
Proof.
  split; [exact validate_int_priority|].
  split.
  - exists (TaskModel.Build (Some oid1_str) "Buy milk" "Two litres" 100 undone),
      (created_document oid1 (TaskModel.Build None "Buy milk" "Two litres" 100 undone)).
    repeat split; vm_compute; reflexivity.
  - exists (TaskModel.Build (Some oid1_str) "Buy milk" "Two litres" 0 undone),
      (created_document oid1 (TaskModel.Build None "Buy milk" "Two litres" 0 undone)).
    repeat split; vm_compute; reflexivity.
Qed.

(** ** update_task *)

Section UpdateFacts.
Import Mongo.

Lemma UpdateTaskModel_dump (task : UpdateTaskModel.t) :
  UpdateTaskModel.model_dump true [] task = dumped_update task.
Proof. reflexivity. Qed.

(** The comprehension keeps exactly the dumped items that are not None. *)
Lemma update_fields_lookup (task : UpdateTaskModel.t) (k : string) (w : value) :
  update_fields task !! k = Some w <->
  UpdateTaskModel.model_dump true [] task !! k = Some w /\ w <> VNone.
Proof. unfold update_fields. apply map_lookup_filter_Some. Qed.

Lemma update_fields_size (task : UpdateTaskModel.t) (k : string) (w : value) :
  update_fields task !! k = Some w -> Nat.leb 1 (size (update_fields task)) = true.
Proof.
  intros H. apply Nat.leb_le.
  assert (size (update_fields task) <> 0%nat); [|lia].
  apply (map_size_ne_0_lookup_2 _ k). rewrite H. eauto.
Qed.

(** With at least one field to write, the handler passes the field set to
    [find_one_and_update] under the parsed id. *)
Lemma update_task_nonempty (id : string) (o : ObjectId) (task : UpdateTaskModel.t)
    (c : collection) :
  Nat.leb 1 (size (update_fields task)) = true ->
  Bson.ObjectId_of_str id = Some o ->
  update_task id task c =
  match find_one_and_update (VObjectId o) (update_fields task) c with
  | (Raise e, c') => (Raise e, c')
  | (Return (Some update_result), c') => (Return update_result, c')
  | (Return None, c') => (Raise (not_found id), c')
  end.
Proof. intros Hn Ho. unfold update_task. cbv zeta. rewrite Hn, Ho. reflexivity. Qed.

(** Without any field to write, the handler looks the document up under
    the id string itself, which no ObjectId key equals. *)
Lemma update_task_empty (id : string) (task : UpdateTaskModel.t) (c : collection) :
  size (update_fields task) = 0%nat -> ObjectId_keys c ->
  update_task id task c = (Raise (not_found id), c).
Proof.
  intros Hn Hc. unfold update_task. cbv zeta. rewrite Hn. cbn [Nat.leb].
  by rewrite find_one_VStr_ObjectId_keys.
Qed.

Lemma find_one_split v (d d' : document) (c : collection) :
  find_one v c = Some d ->
  exists c1 c2, c = c1 ++ d :: c2 /\ replace_one v d' c = c1 ++ d' :: c2.
Proof.
  induction c as [|x c IH]; cbn [find_one replace_one]; [discriminate|].
  destruct (matches v x) eqn:E.
  - intros [= ->]. by exists [], c.
  - intros H. destruct (IH H) as (c1 & c2 & -> & ->). by exists (x :: c1), c2.
Qed.

Lemma priority_5_fields :
  UpdateTaskModel.model_validate priority_5 =
    Some (UpdateTaskModel.Build None None None (Some 5%Z) None) /\
  update_fields (UpdateTaskModel.Build None None None (Some 5%Z) None) = priority_5.
Proof. split; vm_compute; reflexivity. Qed.

(** The update with [{"priority": 5}] on a stored document. *)
Lemma update_priority_5 (id : string) (o : ObjectId) (c : collection) (d : document) :
  Bson.ObjectId_of_str id = Some o ->
  find_one (VObjectId o) c = Some d ->
  Routes.PUT_task id priority_5 c =
    (update_response (<["priority" := VInt 5]> d),
     replace_one (VObjectId o) (<["priority" := VInt 5]> d) c).
Proof.
  intros Ho Hd. unfold Routes.PUT_task.
  destruct priority_5_fields as [-> Hf].
  rewrite (update_task_nonempty id o) by (rewrite ?Hf; done).
  rewrite Hf. unfold find_one_and_update.
  assert (encodable priority_5 = true) as -> by (vm_compute; reflexivity).
  cbn [negb]. rewrite Hd.
  assert (priority_5 !! "_id" = None) as -> by reflexivity.
  unfold priority_5. rewrite <- insert_union_singleton_l.
  unfold update_response.
  by destruct (UpdateTaskModel.model_validate (<["priority" := VInt 5]> d)).
Qed.
End UpdateFacts.

(** ** delete_task *)

Section DeleteFacts.
Import Mongo.

Lemma delete_found (id : string) (o : ObjectId) (c : collection) (d : document) :
  Bson.ObjectId_of_str id = Some o -> find_one (VObjectId o) c = Some d ->
  Routes.DELETE_task id c = (no_content, remove_one (VObjectId o) c).
Proof.
  intros Ho Hd. unfold Routes.DELETE_task, delete_task, delete_one.
  rewrite Ho, Hd. reflexivity.
Qed.

Lemma delete_missing (id : string) (o : ObjectId) (c : collection) :
  Bson.ObjectId_of_str id = Some o -> find_one (VObjectId o) c = None ->
  Routes.DELETE_task id c = (not_found_response id, c).
Proof.
  intros Ho Hd. unfold Routes.DELETE_task, delete_task, delete_one.
  rewrite Ho, Hd. reflexivity.
Qed.
End DeleteFacts.

(** ** The claims about get, update, delete and list *)

(** C1: on a collection holding one task created through the route, GET
    with the id of that task answers 200, and PUT with the same id and an
    empty body answers 404 "not found".  The lookup of the empty update uses
    the id string where the stored key is an ObjectId. *)
Theorem update_empty_body_misses_existing_task :
  exists t,
    Routes.GET_task oid1_str one_task =
      ({| status := 200; content_of := JSONTask t |}, one_task) /\
    TaskModel.id t = Some oid1_str /\
    size (update_fields (UpdateTaskModel.Build None None None None None)) = 0%nat /\
    Routes.PUT_task oid1_str ∅ one_task = (not_found_response oid1_str, one_task).
Proof.
  exists (TaskModel.Build (Some oid1_str) "Buy milk" "Two litres" 10 undone).
  repeat split; vm_compute; reflexivity.
Qed.

(** X15: on every collection whose keys are ObjectIds, a PUT whose body has
    no field to write is answered 404, for every id, stored or not, well
    formed or not, and the collection is left as it was. *)
Lemma update_empty_body_always_404 (id : string) (body : dict)
    (task : UpdateTaskModel.t) (c : collection) :
  UpdateTaskModel.model_validate body = Some task ->
  size (update_fields task) = 0%nat -> ObjectId_keys c ->
  Routes.PUT_task id body c = (not_found_response id, c).
Proof.
  intros Hv Hn Hc. unfold Routes.PUT_task.
  rewrite Hv, update_task_empty by done. reflexivity.
Qed.

Lemma update_empty_body_always_404_witness :
  Routes.PUT_task oid1_str ∅ one_task = (not_found_response oid1_str, one_task).
Proof.
  apply (update_empty_body_always_404 oid1_str ∅
           (UpdateTaskModel.Build None None None None None) one_task).
  - reflexivity.
  - vm_compute. reflexivity.
  - apply Forall_cons. split; [exists oid1; vm_compute; reflexivity | apply Forall_nil_2].
Defined.

(** C2, as the code has it: an id string that [ObjectId] rejects makes get
    and delete, and update with at least one field to write, raise
    [InvalidId]; nothing handles it, so the answer is 500, and the
    collection is left as it was. *)
Theorem invalid_id_is_unhandled (id : string) (c : collection) :
  Bson.ObjectId_of_str id = None ->
  (show_task id c = Raise InvalidId /\
   Routes.GET_task id c = (internal_server_error, c)) /\
  (delete_task id c = (Raise InvalidId, c) /\
   Routes.DELETE_task id c = (internal_server_error, c)) /\
  (forall (body : dict) (task : UpdateTaskModel.t),
     UpdateTaskModel.model_validate body = Some task ->
     (1 <= size (update_fields task))%nat ->
     update_task id task c = (Raise InvalidId, c) /\
     Routes.PUT_task id body c = (internal_server_error, c)).
Proof.
  intros Hid. split; [|split].
  - unfold Routes.GET_task, show_task. by rewrite Hid.
  - unfold Routes.DELETE_task, delete_task. by rewrite Hid.
  - intros body task Hv Hn. apply Nat.leb_le in Hn.
    assert (update_task id task c = (Raise InvalidId, c)) as Hup
      by (unfold update_task; cbv zeta; by rewrite Hn, Hid).
    split; [exact Hup|]. unfold Routes.PUT_task. by rewrite Hv, Hup.
Qed.

Lemma invalid_id_is_unhandled_witness :
  (show_task "xyz" one_task = Raise InvalidId /\
   Routes.GET_task "xyz" one_task = (internal_server_error, one_task)) /\
  (delete_task "xyz" one_task = (Raise InvalidId, one_task) /\
   Routes.DELETE_task "xyz" one_task = (internal_server_error, one_task)) /\
  (update_task "xyz" (UpdateTaskModel.Build None None None (Some 5%Z) None) one_task
     = (Raise InvalidId, one_task) /\
   Routes.PUT_task "xyz" priority_5 one_task = (internal_server_error, one_task)).
Proof.
  destruct (invalid_id_is_unhandled "xyz" one_task) as (Hget & Hdel & Hput);
    [reflexivity|].
  split; [exact Hget|]. split; [exact Hdel|].
  apply (Hput priority_5); [vm_compute; reflexivity | vm_compute; lia].
Defined.

(** C2, as stated, fails: "xyz" is not an ObjectId, and GET /tasks/xyz is
    answered 500, which is no client error. *)
Lemma invalid_id_not_client_error :
  Bson.ObjectId_of_str "xyz" = None /\
  (Routes.GET_task "xyz" one_task).1 = internal_server_error /\
  (Routes.DELETE_task "xyz" one_task).1 = internal_server_error /\
  ~ client_error (Routes.GET_task "xyz" one_task).1 /\
  ~ client_error (Routes.DELETE_task "xyz" one_task).1 /\
  server_fault (Routes.GET_task "xyz" one_task).1.
Proof.
  assert ((Routes.GET_task "xyz" one_task).1 = internal_server_error) as Hg
    by (vm_compute; reflexivity).
  assert ((Routes.DELETE_task "xyz" one_task).1 = internal_server_error) as Hd
    by (vm_compute; reflexivity).
  split; [reflexivity|]. split; [exact Hg|]. split; [exact Hd|].
  rewrite Hg, Hd. unfold client_error, server_fault, internal_server_error.
  cbn [status]. lia.
Qed.

(** C6: PUT with the body [{"priority": 5}] on the id of a stored document
    [d] replaces [d], in place, by a document whose priority is 5 and whose
    other keys (title, description, status, _id and any other) are those of
    [d]; the rest of the collection is as it was.  The answer is 200 with
    the updated document when it fits [UpdateTaskModel]. *)
Theorem update_priority_only (id : string) (o : ObjectId) (c : collection)
    (d : document) :
  Bson.ObjectId_of_str id = Some o ->
  Mongo.find_one (VObjectId o) c = Some d ->
  exists d' c1 c2,
    c = c1 ++ d :: c2 /\
    Routes.PUT_task id priority_5 c = (update_response d', c1 ++ d' :: c2) /\
    Mongo.find_one (VObjectId o) (c1 ++ d' :: c2) = Some d' /\
    d' !! "priority" = Some (VInt 5) /\
    d' !! "title" = d !! "title" /\
    d' !! "description" = d !! "description" /\
    d' !! "status" = d !! "status" /\
    d' !! "_id" = d !! "_id" /\
    (forall k : string, k <> "priority" -> d' !! k = d !! k).
Proof.
  intros Ho Hd.
  destruct (find_one_split (VObjectId o) d (<["priority" := VInt 5]> d) c Hd)
    as (c1 & c2 & Hc & Hr).
  exists (<["priority" := VInt 5]> d), c1, c2.
  assert (forall k : string, k <> "priority" ->
            (<["priority" := VInt 5]> d : document) !! k = d !! k) as Hframe
    by (intros k Hk; by rewrite lookup_insert_ne).
  split; [exact Hc|]. split; [by rewrite <- Hr; apply update_priority_5|].
  split.
  { rewrite <- Hr. apply (find_one_replace_one _ d); [exact Hd|].
    rewrite Hframe by done. by apply find_one_Some in Hd as [_ ?]. }
  split; [apply lookup_insert_eq|].
  repeat split; apply Hframe; done.
Qed.

Lemma update_priority_only_witness :
  exists d' c1 c2,
    one_task = c1 ++ created_document oid1
                       (TaskModel.Build None "Buy milk" "Two litres" 10 undone) :: c2 /\
    Routes.PUT_task oid1_str priority_5 one_task = (update_response d', c1 ++ d' :: c2) /\
    Mongo.find_one (VObjectId oid1) (c1 ++ d' :: c2) = Some d' /\
    d' !! "priority" = Some (VInt 5) /\
    d' !! "title" = Some (VStr "Buy milk") /\
    d' !! "description" = Some (VStr "Two litres") /\
    d' !! "status" = Some (VStr "undone") /\
    d' !! "_id" = Some (VObjectId oid1) /\
    (forall k : string, k <> "priority" ->
       d' !! k = created_document oid1
                   (TaskModel.Build None "Buy milk" "Two litres" 10 undone) !! k).
Proof.
  apply (update_priority_only oid1_str oid1 one_task
           (created_document oid1 (TaskModel.Build None "Buy milk" "Two litres" 10 undone)));
    vm_compute; reflexivity.
Defined.

(** C8: with unique ids, the first DELETE of a stored id answers 204 without
    a body and the second DELETE of the same id answers 404. *)
Theorem delete_twice (id : string) (o : ObjectId) (c : collection) (d : document) :
  Bson.ObjectId_of_str id = Some o ->
  Mongo.find_one (VObjectId o) c = Some d ->
  unique_ids c ->
  exists c',
    Routes.DELETE_task id c = (no_content, c') /\
    Routes.DELETE_task id c' = (not_found_response id, c').
Proof.
  intros Ho Hd Hu. exists (Mongo.remove_one (VObjectId o) c). split.
  - by apply (delete_found id o c d).
  - apply (delete_missing id o); [exact Ho|]. by apply find_one_remove_one.
Qed.

Lemma delete_twice_witness :
  exists c',
    Routes.DELETE_task oid1_str one_task = (no_content, c') /\
    Routes.DELETE_task oid1_str c' = (not_found_response oid1_str, c').
Proof.
  apply (delete_twice oid1_str oid1 one_task
           (created_document oid1 (TaskModel.Build None "Buy milk" "Two litres" 10 undone)));
    [vm_compute; reflexivity | vm_compute; reflexivity |].
  unfold unique_ids. apply NoDup_cons. split; [apply not_elem_of_nil | apply NoDup_nil_2].
Defined.

(** C9: whatever the collection holds, the response of GET /tasks/ has at
    most 1000 records, and [to_list(1000)] hands the handler at most 1000
    documents. *)
Theorem list_at_most_1000 (c : collection) :
  (records_returned (Routes.GET_tasks c).1 <= 1000)%nat /\
  (length (Mongo.to_list 1000 c) <= 1000)%nat.
Proof.
  assert (length (Mongo.to_list 1000 c) <= 1000)%nat as Hlen
    by (unfold Mongo.to_list; rewrite length_take; lia).
  split; [|exact Hlen].
  unfold Routes.GET_tasks, list_tasks, TaskCollection.model_validate.
  destruct (mapM TaskModel.model_validate (Mongo.to_list 1000 c)) as [ts|] eqn:E;
    cbn [fmap option_fmap option_map]; unfold records_returned;
    cbn [fst exception_response content_of TaskCollection.tasks]; [|lia].
  apply length_mapM in E. lia.
Qed.

(** X10: if every stored document fits [TaskModel], the list is answered
    200 and holds the first 1000 documents, or all of them when there are
    fewer. *)
Lemma list_returns_min (c : collection) :
  Forall (fun d => is_Some (TaskModel.model_validate d)) c ->
  exists tc,
    Routes.GET_tasks c = ({| status := 200; content_of := JSONTaskCollection tc |}, c) /\
    length (TaskCollection.tasks tc) = Nat.min 1000 (length c).
Proof.
  intros Hall.
  assert (is_Some (mapM TaskModel.model_validate (Mongo.to_list 1000 c))) as [ts E].
  { apply mapM_is_Some. unfold Mongo.to_list. by apply Forall_take. }
  exists (TaskCollection.Build ts).
  unfold Routes.GET_tasks, list_tasks, TaskCollection.model_validate. rewrite E.
  split; [reflexivity|]. cbn [TaskCollection.tasks].
  apply length_mapM in E. rewrite <- E. unfold Mongo.to_list. apply length_take.
Qed.

Lemma list_returns_min_witness :
  exists tc,
    Routes.GET_tasks one_task =
      ({| status := 200; content_of := JSONTaskCollection tc |}, one_task) /\
    length (TaskCollection.tasks tc) = Nat.min 1000 (length one_task).
Proof.
  apply (list_returns_min one_task).
  apply Forall_cons. split; [vm_compute; eauto | apply Forall_nil_2].
Defined.

(** A non-null [_id] of the body is among the fields to write, as a
    string. *)
Lemma update_fields_client_id (body : dict) (v : value) (task : UpdateTaskModel.t) :
  body !! "_id" = Some v -> v <> VNone ->
  UpdateTaskModel.model_validate body = Some task ->
  update_fields task !! "_id" = Some (VStr (py_str v)).
Proof.
  intros Hb Hv Hval.
  apply UpdateTaskModel_validate_Some in Hval as (Hid & _).
  unfold Pydantic.validate_field, Pydantic.field_input, UpdateTaskModel.id_field in Hid.
  cbn [Pydantic.alias Pydantic.kwargs] in Hid. rewrite Hb in Hid.
  rewrite validate_id_not_None in Hid by exact Hv.
  assert (UpdateTaskModel.id task = Some (py_str v)) as Hi by congruence.
  apply update_fields_lookup. rewrite UpdateTaskModel_dump. unfold dumped_update.
  rewrite lookup_insert_eq, Hi. done.
Qed.



(** X16: a PUT whose body has a non-null [_id], on the id of a stored
    task, writes nothing and is answered 500: the key of the task is an
    ObjectId and the [_id] to write is a string, so the store refuses the
    write (or the field set cannot be encoded). *)
Lemma update_with_client_id_refused (id : string) (o : ObjectId) (body : dict)
    (v : value) (task : UpdateTaskModel.t) (c : collection) (d : document) :
  body !! "_id" = Some v -> v <> VNone ->
  UpdateTaskModel.model_validate body = Some task ->
  Bson.ObjectId_of_str id = Some o ->
  Mongo.find_one (VObjectId o) c = Some d ->
  Routes.PUT_task id body c = (internal_server_error, c).
Proof.
  intros Hb Hv Hval Ho Hd.
  pose proof (update_fields_client_id body v task Hb Hv Hval) as Hset.
  unfold Routes.PUT_task.
  rewrite Hval, (update_task_nonempty id o)
    by (exact Ho || by apply (update_fields_size task "_id" (VStr (py_str v)))).
  unfold Mongo.find_one_and_update.
  destruct (Mongo.encodable (update_fields task)); cbn [negb]; [|reflexivity].
  rewrite Hd, Hset. apply find_one_Some in Hd as [_ Hd].
  rewrite bool_decide_eq_false_2 by (rewrite Hd; discriminate).
  reflexivity.
Qed.

Lemma update_with_client_id_refused_witness :
  Routes.PUT_task oid1_str only_id one_task = (internal_server_error, one_task).
Proof.
  apply (update_with_client_id_refused oid1_str oid1 only_id (VStr "abc")
           (UpdateTaskModel.Build (Some "abc") None None None None) one_task
           (created_document oid1 milk_task'));
    [reflexivity | discriminate | vm_compute; reflexivity | reflexivity
    | vm_compute; reflexivity].
Defined.

(** ** Create, then get *)

Section CreateGet.
Import Pydantic.

Lemma validate_StatusEnum_value (s : StatusEnum) :
  validate_StatusEnum [] (VStr (StatusEnum_value s)) = Some s.
Proof. by destruct s. Qed.

(** What validation of the body tells about the validated task. *)
Lemma TaskModel_validated_lengths (body : dict) (task : TaskModel.t) :
  TaskModel.model_validate body = Some task ->
  (3 <= String.length (TaskModel.title task) <= 100)%nat /\
  (body !! "description" <> None ->
   (3 <= String.length (TaskModel.description task) <= 500)%nat).
Proof.
  intros Hv. apply TaskModel_validate_Some in Hv as (_ & Ht & Hd & _).
  unfold TaskModel.title_field in Ht. unfold TaskModel.description_field in Hd.
  rewrite validate_field_no_alias in Ht, Hd. split.
  - destruct (body !! "title") as [[]|]; try discriminate.
    by apply validate_str_length in Ht as [-> ?].
  - intros Hsome. destruct (body !! "description") as [[]|]; try discriminate; [|done].
    by apply validate_str_length in Hd as [-> ?].
Qed.

(** The stored document is read back as the task with its id, provided
    title and description are within their declared lengths. *)
Lemma created_document_validates (fresh : ObjectId) (task : TaskModel.t) :
  (3 <= String.length (TaskModel.title task) <= 100)%nat ->
  (3 <= String.length (TaskModel.description task) <= 500)%nat ->
  TaskModel.model_validate (created_document fresh task) = Some (with_id fresh task).
Proof.
  intros Ht Hd. apply TaskModel_validate_Some.
  unfold with_id; cbn [TaskModel.id TaskModel.title TaskModel.description
                         TaskModel.priority TaskModel.status].
  destruct (created_document_lookup fresh task) as (_ & Lt & Ld & _ & Ls).
  split; [reflexivity|]. split; [|split; [|split]].
  - unfold TaskModel.title_field. rewrite validate_field_no_alias, Lt.
    by apply validate_str_length.
  - unfold TaskModel.description_field. rewrite validate_field_no_alias, Ld.
    by apply validate_str_length.
  - reflexivity.
  - unfold TaskModel.status_field. rewrite validate_field_no_alias, Ls.
    apply validate_StatusEnum_value.
Qed.

(** With the default description the stored document does not fit
    [TaskModel]: the empty string is below the declared minimum length. *)
Lemma created_document_default_description (fresh : ObjectId) (task : TaskModel.t) :
  TaskModel.description task = "" ->
  TaskModel.model_validate (created_document fresh task) = None.
Proof.
  intros Hd. apply (TaskModel_description_too_short _ "").
  - destruct (created_document_lookup fresh task) as (_ & _ & -> & _). by rewrite Hd.
  - cbn. lia.
Qed.

(** X4: a create whose body passes validation and supplies a description
    is answered 201 with the task and its id, a non-empty string, and a get
    of that id answers 200 with the same task.  The insert needs an unused
    ObjectId (12 bytes) and a priority that fits 8 bytes. *)
Lemma create_then_get (fresh : ObjectId) (body : dict) (task : TaskModel.t)
    (c : collection) :
  TaskModel.model_validate body = Some task ->
  body !! "description" <> None ->
  (- 2 ^ 63 <= TaskModel.priority task < 2 ^ 63)%Z ->
  length fresh = 12%nat ->
  Mongo.find_one (VObjectId fresh) c = None ->
  let c' := c ++ [created_document fresh task] in
  Routes.POST_tasks fresh body c = (created (with_id fresh task), c') /\
  TaskModel.id (with_id fresh task) = Some (Bson.str_of_ObjectId fresh) /\
  Bson.str_of_ObjectId fresh <> "" /\
  Routes.GET_task (Bson.str_of_ObjectId fresh) c' = (ok_task (with_id fresh task), c').
Proof.
  intros Hv Hdesc Hp Hlen Hfresh c'.
  destruct (TaskModel_validated_lengths body task Hv) as [Ht Hd].
  specialize (Hd Hdesc).
  pose proof (created_document_validates fresh task Ht Hd) as Hback.
  split; [|split; [reflexivity|split; [by apply str_of_ObjectId_nonempty|]]].
  - unfold Routes.POST_tasks. rewrite Hv, create_task_inserts by done.
    cbn [mbind option_bind]. by rewrite Hback.
  - unfold Routes.GET_task, show_task.
    rewrite ObjectId_of_str_of_ObjectId by exact Hlen.
    unfold c'. rewrite find_one_app, Hfresh.
    assert (Mongo.matches (VObjectId fresh) (created_document fresh task) = true) as ->
      by (apply matches_true; reflexivity).
    by rewrite Hback.
Qed.

Lemma create_then_get_witness :
  let c' := [] ++ [created_document oid1 milk_task'] in
  Routes.POST_tasks oid1 buy_milk' [] = (created (with_id oid1 milk_task'), c') /\
  TaskModel.id (with_id oid1 milk_task') = Some (Bson.str_of_ObjectId oid1) /\
  Bson.str_of_ObjectId oid1 <> "" /\
  Routes.GET_task (Bson.str_of_ObjectId oid1) c' = (ok_task (with_id oid1 milk_task'), c').
Proof.
  apply (create_then_get oid1 buy_milk' milk_task' []);
    [reflexivity | vm_compute; discriminate | vm_compute; split; congruence
    | reflexivity | reflexivity].
Defined.

(** X5: a create whose body passes validation without a description stores
    the task, with the empty description, and is answered 500: the stored
    document does not fit the response model. *)
Lemma create_without_description (fresh : ObjectId) (body : dict)
    (task : TaskModel.t) (c : collection) :
  TaskModel.model_validate body = Some task ->
  body !! "description" = None ->
  (- 2 ^ 63 <= TaskModel.priority task < 2 ^ 63)%Z ->
  Mongo.find_one (VObjectId fresh) c = None ->
  Routes.POST_tasks fresh body c =
    (internal_server_error, c ++ [created_document fresh task]).
Proof.
  intros Hv Hdesc Hp Hfresh.
  unfold Routes.POST_tasks. rewrite Hv, create_task_inserts by done.
  cbn [mbind option_bind].
  rewrite created_document_default_description; [reflexivity|].
  by apply (TaskModel_description_default body).
Qed.

Lemma create_without_description_witness :
  Routes.POST_tasks oid2 buy_milk one_task =
    (internal_server_error, one_task ++ [created_document oid2 milk_task]).
Proof.
  apply (create_without_description oid2 buy_milk milk_task one_task).
  - reflexivity.
  - reflexivity.
  - vm_compute. split; congruence.
  - vm_compute. reflexivity.
Defined.
End CreateGet.

(** C4: a create request whose body has no [description] is not answered
    201.  The body passes validation with the description set to the empty
    default and the document is stored with the empty description, but the
    answer is 500 (given an unused ObjectId and a priority that fits 8
    bytes, without which nothing is stored): the stored description fails
    the minimum length of the response model.  A create request whose
    description is a string of 1 or 2 characters is answered 422 and nothing
    is stored. *)
Theorem create_omitted_description_answered_500 :
  (forall (fresh : ObjectId) (body : dict) (task : TaskModel.t) (c : collection),
     body !! "description" = None ->
     TaskModel.model_validate body = Some task ->
     (- 2 ^ 63 <= TaskModel.priority task < 2 ^ 63)%Z ->
     Mongo.find_one (VObjectId fresh) c = None ->
     TaskModel.description task = "" /\
     Routes.POST_tasks fresh body c =
       (internal_server_error, c ++ [created_document fresh task]) /\
     created_document fresh task !! "description" = Some (VStr "")) /\
  (forall (fresh : ObjectId) (body : dict) (s : string) (c : collection),
     body !! "description" = Some (VStr s) ->
     (1 <= String.length s <= 2)%nat ->
     Routes.POST_tasks fresh body c = (validation_error, c)).
Proof.
  split.
  - intros fresh body task c Hd Hv Hp Hfresh.
    pose proof (TaskModel_description_default body task Hd Hv) as Hdesc.
    split; [exact Hdesc|]. split.
    + unfold Routes.POST_tasks. rewrite Hv, create_task_inserts by assumption.
      cbn [mbind option_bind].
      by rewrite created_document_default_description.
    + destruct (created_document_lookup fresh task) as (_ & _ & -> & _).
      by rewrite Hdesc.
  - intros fresh body s c Hd Hs. unfold Routes.POST_tasks.
    rewrite (TaskModel_description_too_short body s Hd); [reflexivity|lia].
Qed.

Lemma create_omitted_description_answered_500_witness :
  (TaskModel.description milk_task = "" /\
   Routes.POST_tasks oid2 buy_milk one_task =
     (internal_server_error, one_task ++ [created_document oid2 milk_task]) /\
   created_document oid2 milk_task !! "description" = Some (VStr "")) /\
  Routes.POST_tasks oid2 short_description one_task = (validation_error, one_task).
Proof.
  destruct create_omitted_description_answered_500 as [H1 H2]. split.
  - apply (H1 oid2 buy_milk milk_task one_task);
      [ reflexivity | reflexivity | vm_compute; split; congruence
      | vm_compute; reflexivity ].
  - apply (H2 oid2 short_description "ab" one_task); [reflexivity | vm_compute; lia].
Defined.

(** C5: the body [{"title": "Buy milk", "status": "undone"}] passes
    validation; the create stores the task and is answered 500, not 201,
    because the stored description, the empty default, fails the minimum
    length of [response_model]; a get of the stored id is answered 500
    too. *)
Theorem create_default_description_not_201 :
  TaskModel.model_validate buy_milk =
    Some (TaskModel.Build None "Buy milk" "" 10 undone) /\
  Routes.POST_tasks oid1 buy_milk [] =
    (internal_server_error,
     [created_document oid1 (TaskModel.Build None "Buy milk" "" 10 undone)]) /\
  Routes.GET_task oid1_str
    [created_document oid1 (TaskModel.Build None "Buy milk" "" 10 undone)] =
    (internal_server_error,
     [created_document oid1 (TaskModel.Build None "Buy milk" "" 10 undone)]).
Proof. repeat split; vm_compute; reflexivity. Qed.

(** ** What every route keeps true of the collection

    The keys stay unique and stay ObjectIds: the collections the theorems
    above speak of are the ones the routes produce from the empty one. *)

Section Invariants.
Import Mongo.

Lemma well_keyed_nil : well_keyed [].
Proof. split; [apply NoDup_nil_2 | apply Forall_nil_2]. Qed.

Lemma well_keyed_snoc (c : collection) (d : document) (o : ObjectId) :
  d !! "_id" = Some (VObjectId o) -> find_one (VObjectId o) c = None ->
  well_keyed c -> well_keyed (c ++ [d]).
Proof.
  intros Hd Hfresh [Hu Hk]. split.
  - unfold unique_ids in *. rewrite map_app. apply NoDup_app.
    split; [exact Hu|]. split; [|apply NoDup_singleton].
    intros x Hx Hin. apply list_elem_of_singleton in Hin. cbn in Hin. subst x.
    apply find_one_None in Hfresh. apply Hfresh. by rewrite <- Hd.
  - apply Forall_app. split; [exact Hk|]. apply Forall_singleton. by exists o.
Qed.

Lemma well_keyed_replace_one v (d' : document) (c : collection) :
  d' !! "_id" = Some v -> (exists o, v = VObjectId o) ->
  well_keyed c -> well_keyed (replace_one v d' c).
Proof.
  intros Hd' [o ->] [Hu Hk].
  assert (map (fun d : document => d !! "_id") (replace_one (VObjectId o) d' c)
          = map (fun d : document => d !! "_id") c) as Hids.
  { clear Hu Hk. induction c as [|x c IH]; cbn [replace_one map]; [reflexivity|].
    destruct (matches (VObjectId o) x) eqn:E; cbn [map]; [|by rewrite IH].
    apply matches_true in E. by rewrite Hd', E. }
  split; [unfold unique_ids; by rewrite Hids|].
  unfold ObjectId_keys in *. clear Hu Hids.
  induction Hk as [|x c Hx Hk IH]; cbn [replace_one]; [apply Forall_nil_2|].
  destruct (matches (VObjectId o) x); apply Forall_cons; split; eauto.
Qed.

Lemma remove_one_ids v (c : collection) (x : option value) :
  x ∈ map (fun d : document => d !! "_id") (remove_one v c) ->
  x ∈ map (fun d : document => d !! "_id") c.
Proof.
  induction c as [|y c IH]; cbn [remove_one map]; [done|].
  destruct (matches v y); [by right|].
  cbn [map]. intros [->|Hin]%elem_of_cons; [left|right; by apply IH].
Qed.

Lemma unique_ids_remove_one v (c : collection) :
  unique_ids c -> unique_ids (remove_one v c).
Proof.
  unfold unique_ids. induction c as [|x c IH]; cbn [remove_one map]; [done|].
  intros [Hx Hu]%NoDup_cons. destruct (matches v x); [exact Hu|].
  cbn [map]. apply NoDup_cons. split; [|by apply IH].
  intros Hin. apply Hx. by apply (remove_one_ids v).
Qed.

Lemma ObjectId_keys_remove_one v (c : collection) :
  ObjectId_keys c -> ObjectId_keys (remove_one v c).
Proof.
  unfold ObjectId_keys. induction 1 as [|x c Hx Hk IH]; cbn [remove_one]; [done|].
  destruct (matches v x); [exact Hk|]. by apply Forall_cons.
Qed.

Lemma well_keyed_remove_one v (c : collection) :
  well_keyed c -> well_keyed (remove_one v c).
Proof.
  intros [Hu Hk]. split;
    [by apply unique_ids_remove_one | by apply ObjectId_keys_remove_one].
Qed.

Lemma POST_tasks_well_keyed (fresh : ObjectId) (body : dict) (c : collection) :
  well_keyed c -> well_keyed (Routes.POST_tasks fresh body c).2.
Proof.
  intros Hc. unfold Routes.POST_tasks.
  destruct (TaskModel.model_validate body) as [task|]; [|exact Hc].
  unfold create_task, insert_one. rewrite TaskModel_dump.
  destruct (dumped_task_no_id task) as [-> _]. fold (created_document fresh task).
  destruct (encodable (created_document fresh task)); cbn [negb]; [|exact Hc].
  destruct (find_one (VObjectId fresh) c) eqn:Hfresh; [exact Hc|].
  assert (well_keyed (c ++ [created_document fresh task]))
    by (by apply (well_keyed_snoc c _ fresh)).
  by destruct (mbind _ _).
Qed.

Lemma PUT_task_well_keyed (id : string) (body : dict) (c : collection) :
  well_keyed c -> well_keyed (Routes.PUT_task id body c).2.
Proof.
  intros Hc. unfold Routes.PUT_task.
  destruct (UpdateTaskModel.model_validate body) as [task|]; [|exact Hc].
  unfold update_task.
  destruct (Nat.leb 1 (size (update_fields task))).
  2: { destruct (find_one (VStr id) c) as [existing_task|]; [|exact Hc].
       by destruct (UpdateTaskModel.model_validate existing_task). }
  destruct (Bson.ObjectId_of_str id) as [o|]; [|exact Hc].
  unfold find_one_and_update.
  destruct (encodable (update_fields task)); cbn [negb]; [|exact Hc].
  destruct (find_one (VObjectId o) c) as [d|] eqn:Hd; [|exact Hc].
  apply find_one_Some in Hd as [_ Hd].
  assert (forall i, update_fields task !! "_id" = Some i -> d !! "_id" = Some i ->
            well_keyed (replace_one (VObjectId o) (update_fields task ∪ d) c)) as Hsame.
  { intros i Hi Hdi. apply well_keyed_replace_one; [|by exists o|exact Hc].
    rewrite (lookup_union_Some_l _ _ _ i) by exact Hi. congruence. }
  destruct (update_fields task !! "_id") as [i|] eqn:Hi.
  - case_bool_decide as Hdi; [|exact Hc].
    specialize (Hsame i eq_refl Hdi). by destruct (UpdateTaskModel.model_validate _).
  - assert (well_keyed (replace_one (VObjectId o) (update_fields task ∪ d) c)).
    { apply well_keyed_replace_one; [|by exists o|exact Hc].
      by rewrite lookup_union_r. }
    by destruct (UpdateTaskModel.model_validate _).
Qed.

Lemma DELETE_task_well_keyed (id : string) (c : collection) :
  well_keyed c -> well_keyed (Routes.DELETE_task id c).2.
Proof.
  intros Hc. unfold Routes.DELETE_task, delete_task, delete_one.
  destruct (Bson.ObjectId_of_str id) as [o|]; [|exact Hc].
  destruct (find_one (VObjectId o) c); cbn; [|exact Hc].
  by apply well_keyed_remove_one.
Qed.
End Invariants.

(** * Further properties of the routes *)

(** ** Responses and the collection *)

(** X1: a request that is answered with a client error (4xx: the 404 and
    422 of the routes) leaves the collection as it was, whatever the route.
    Only a 2xx or a 500 can go with a write. *)
Theorem client_error_leaves_collection (r : request) (c : collection) :
  client_error (tasks_app r c).1 -> (tasks_app r c).2 = c.
Proof.
  unfold client_error. destruct r as [fresh body| |id|id body|id]; cbn [tasks_app].
  - unfold Routes.POST_tasks.
    destruct (TaskModel.model_validate body) as [task|]; [|reflexivity].
    unfold create_task, Mongo.insert_one.
    destruct (negb _); [cbn; lia|].
    destruct (Mongo.find_one _ c); [cbn; lia|].
    destruct (mbind _ _); cbn; lia.
  - unfold Routes.GET_tasks. by destruct (list_tasks c).
  - unfold Routes.GET_task. destruct (show_task id c) as [d|e]; [|reflexivity].
    by destruct (TaskModel.model_validate d).
  - unfold Routes.PUT_task.
    destruct (UpdateTaskModel.model_validate body) as [task|]; [|reflexivity].
    unfold update_task.
    destruct (Nat.leb 1 (size (update_fields task))).
    + destruct (Bson.ObjectId_of_str id) as [o|]; [|reflexivity].
      unfold Mongo.find_one_and_update.
      destruct (negb _); [reflexivity|].
      destruct (Mongo.find_one (VObjectId o) c) as [d|]; [|reflexivity].
      destruct (update_fields task !! "_id") as [i|].
      * destruct (bool_decide _); [|reflexivity].
        destruct (UpdateTaskModel.model_validate _); cbn; lia.
      * destruct (UpdateTaskModel.model_validate _); cbn; lia.
    + destruct (Mongo.find_one (VStr id) c) as [d|]; [|reflexivity].
      by destruct (UpdateTaskModel.model_validate d).
  - unfold Routes.DELETE_task, delete_task, Mongo.delete_one.
    destruct (Bson.ObjectId_of_str id) as [o|]; [|reflexivity].
    destruct (Mongo.find_one (VObjectId o) c); cbn; [lia|reflexivity].
Qed.

Lemma client_error_leaves_collection_witness :
  (tasks_app (PutTask oid1_str ∅) one_task).2 = one_task.
Proof.
  apply (client_error_leaves_collection (PutTask oid1_str ∅) one_task).
  vm_compute. split; congruence.
Defined.

(** X2: the status codes of the validation and the handlers.  To a request
    handed to its route with the body read as a JSON object, POST answers
    201, 422 or 500; the list 200 or 500; GET of one task 200, 404 or 500;
    PUT 200, 404, 422 or 500; DELETE 204, 404 or 500.  So no model and no
    handler of the program produces a 400. *)
Theorem status_codes (r : request) (c : collection) :
  status (tasks_app r c).1 ∈
  match r with
  | PostTasks _ _ => [201; 422; 500]
  | GetTasks => [200; 500]
  | GetTask _ => [200; 404; 500]
  | PutTask _ _ => [200; 404; 422; 500]
  | DeleteTask _ => [204; 404; 500]
  end%Z.
Proof.
  destruct r as [fresh body| |id|id body|id]; cbn [tasks_app].
  - unfold Routes.POST_tasks.
    destruct (TaskModel.model_validate body) as [task|]; [|cbn; set_solver].
    unfold create_task, Mongo.insert_one.
    destruct (negb _); [cbn; set_solver|].
    destruct (Mongo.find_one _ c); [cbn; set_solver|].
    destruct (mbind _ _); cbn; set_solver.
  - unfold Routes.GET_tasks, list_tasks.
    destruct (TaskCollection.model_validate _); cbn; set_solver.
  - unfold Routes.GET_task, show_task.
    destruct (Bson.ObjectId_of_str id) as [o|]; [|cbn; set_solver].
    destruct (Mongo.find_one (VObjectId o) c) as [d|]; [|cbn; set_solver].
    destruct (TaskModel.model_validate d); cbn; set_solver.
  - unfold Routes.PUT_task.
    destruct (UpdateTaskModel.model_validate body) as [task|]; [|cbn; set_solver].
    unfold update_task.
    destruct (Nat.leb 1 (size (update_fields task))).
    + destruct (Bson.ObjectId_of_str id) as [o|]; [|cbn; set_solver].
      unfold Mongo.find_one_and_update.
      destruct (negb _); [cbn; set_solver|].
      destruct (Mongo.find_one (VObjectId o) c) as [d|]; [|cbn; set_solver].
      destruct (update_fields task !! "_id") as [i|].
      * destruct (bool_decide _); [|cbn; set_solver].
        destruct (UpdateTaskModel.model_validate _); cbn; set_solver.
      * destruct (UpdateTaskModel.model_validate _); cbn; set_solver.
    + destruct (Mongo.find_one (VStr id) c) as [d|]; [|cbn; set_solver].
      destruct (UpdateTaskModel.model_validate d); cbn; set_solver.
  - unfold Routes.DELETE_task, delete_task, Mongo.delete_one.
    destruct (Bson.ObjectId_of_str id) as [o|]; [|cbn; set_solver].
    destruct (Mongo.find_one (VObjectId o) c); cbn; set_solver.
Qed.

(** X3: whatever requests are served, starting from the empty collection,
    the [_id] keys of the collection stay unique and stay ObjectIds: no
    request can write a key of another type or duplicate one. *)
Theorem reachable_well_keyed (rs : list request) : well_keyed (run rs []).
Proof.
  unfold run.
  assert (forall c, well_keyed c -> well_keyed (foldl (fun c r => (tasks_app r c).2) c rs)) as H;
    [|apply H, well_keyed_nil].
  induction rs as [|r rs IH]; intros c Hc; cbn [foldl]; [exact Hc|].
  apply IH. destruct r as [fresh body| |id|id body|id]; cbn [tasks_app].
  - by apply POST_tasks_well_keyed.
  - unfold Routes.GET_tasks. by destruct (list_tasks c).
  - unfold Routes.GET_task. destruct (show_task id c) as [d|e]; [|exact Hc].
    by destruct (TaskModel.model_validate d).
  - by apply PUT_task_well_keyed.
  - by apply DELETE_task_well_keyed.
Qed.

(** ** What create reads of its body *)

Section CreateBody.
Import Pydantic.

(** An [id] input never fails validation. *)
Lemma TaskModel_validate_id (data : dict) :
  is_Some (validate_field true "id" TaskModel.id_field
             (validate_Optional validate_PyObjectId) data).
Proof.
  unfold validate_field. destruct (field_input _ _ _ _) as [v|]; [|by eexists].
  destruct (decide (v = VNone)) as [->|Hv]; [by eexists|].
  cbn [kwargs TaskModel.id_field]. rewrite validate_id_not_None by exact Hv. by eexists.
Qed.

Lemma create_task_without_id (fresh : ObjectId) (task : TaskModel.t) (c : collection) :
  create_task fresh task c = create_task fresh (without_id task) c.
Proof. unfold create_task. by rewrite !TaskModel_dump. Qed.

Lemma TaskModel_validate_agree (b1 b2 : dict) :
  b1 !! "title" = b2 !! "title" ->
  b1 !! "description" = b2 !! "description" ->
  b1 !! "priority" = b2 !! "priority" ->
  b1 !! "status" = b2 !! "status" ->
  without_id <$> TaskModel.model_validate b1 = without_id <$> TaskModel.model_validate b2.
Proof.
  intros Ht Hd Hp Hs. unfold TaskModel.model_validate, TaskModel.populate_by_name.
  destruct (TaskModel_validate_id b1) as [i1 ->], (TaskModel_validate_id b2) as [i2 ->].
  unfold TaskModel.title_field, TaskModel.description_field,
    TaskModel.priority_field, TaskModel.status_field.
  rewrite !validate_field_no_alias, Ht, Hd, Hp, Hs.
  destruct (b2 !! "title") as [vt|]; [|reflexivity].
  cbn [mbind option_bind].
  destruct (validate_str _ vt); [|reflexivity]. cbn [mbind option_bind].
  destruct (match b2 !! "description" with Some v => _ | None => _ end); [|reflexivity].
  cbn [mbind option_bind].
  destruct (match b2 !! "priority" with Some v => _ | None => _ end); [|reflexivity].
  cbn [mbind option_bind].
  destruct (match b2 !! "status" with Some v => _ | None => _ end); reflexivity.
Qed.

Lemma TaskModel_field_rejected (data : dict) :
  (forall t, validate_field true "title" TaskModel.title_field validate_str data
               <> Some t) \/
  (forall d, validate_field true "description" TaskModel.description_field validate_str data
               <> Some d) \/
  (forall p, validate_field true "priority" TaskModel.priority_field validate_int data
               <> Some p) \/
  (forall s, validate_field true "status" TaskModel.status_field validate_StatusEnum data
               <> Some s) ->
  TaskModel.model_validate data = None.
Proof.
  intros H. destruct (TaskModel.model_validate data) as [t|] eqn:E; [|reflexivity].
  apply TaskModel_validate_Some in E as (_ & Et & Ed & Ep & Es).
  destruct H as [H|[H|[H|H]]]; exfalso; eapply H; eassumption.
Qed.

Lemma validate_StatusEnum_Some (kw : list kwarg) (v : value) (s : StatusEnum) :
  validate_StatusEnum kw v = Some s -> v = VStr (StatusEnum_value s).
Proof.
  destruct v as [| | |x|]; try discriminate. cbn [validate_StatusEnum].
  destruct (String.eqb_spec x "done") as [->|_]; [by intros [= <-]|].
  destruct (String.eqb_spec x "undone") as [->|_]; [by intros [= <-]|].
  destruct (String.eqb_spec x "progress") as [->|_]; [by intros [= <-]|].
  discriminate.
Qed.
End CreateBody.

(** X6: create reads four keys of its body and nothing else.  Two bodies
    that agree on [title], [description], [priority] and [status] get the
    same answer and leave the same collection: an [_id] or [id] the client
    sends, and any other key, has no effect. *)
Theorem create_reads_four_keys (fresh : ObjectId) (b1 b2 : dict) (c : collection) :
  b1 !! "title" = b2 !! "title" ->
  b1 !! "description" = b2 !! "description" ->
  b1 !! "priority" = b2 !! "priority" ->
  b1 !! "status" = b2 !! "status" ->
  Routes.POST_tasks fresh b1 c = Routes.POST_tasks fresh b2 c.
Proof.
  intros Ht Hd Hp Hs.
  pose proof (TaskModel_validate_agree b1 b2 Ht Hd Hp Hs) as H.
  unfold Routes.POST_tasks.
  destruct (TaskModel.model_validate b1) as [t1|], (TaskModel.model_validate b2) as [t2|];
    cbn [fmap option_fmap option_map] in H; try discriminate; [|reflexivity].
  apply (inj Some) in H.
  by rewrite (create_task_without_id fresh t1), (create_task_without_id fresh t2), H.
Qed.

Lemma create_reads_four_keys_witness :
  Routes.POST_tasks oid1 with_client_id [] = Routes.POST_tasks oid1 buy_milk' [].
Proof.
  apply (create_reads_four_keys oid1 with_client_id buy_milk' []); reflexivity.
Defined.

(** X7: [title] and [status] are required, and no field of a task can be
    null: a create body without [title], without [status], or with null
    for [title], [description], [priority] or [status] is answered 422, and
    nothing is stored. *)
Theorem create_rejects_missing_or_null (fresh : ObjectId) (body : dict) (c : collection) :
  body !! "title" = None \/ body !! "status" = None \/
  body !! "title" = Some VNone \/ body !! "description" = Some VNone \/
  body !! "priority" = Some VNone \/ body !! "status" = Some VNone ->
  Routes.POST_tasks fresh body c = (validation_error, c).
Proof.
  intros H. unfold Routes.POST_tasks.
  rewrite TaskModel_field_rejected; [reflexivity|].
  unfold TaskModel.title_field, TaskModel.description_field,
    TaskModel.priority_field, TaskModel.status_field.
  rewrite !validate_field_no_alias.
  destruct H as [H|[H|[H|[H|[H|H]]]]]; rewrite H.
  - left. discriminate.
  - do 3 right. discriminate.
  - left. discriminate.
  - right; left. discriminate.
  - do 2 right; left. discriminate.
  - do 3 right. discriminate.
Qed.

Lemma create_rejects_missing_or_null_witness :
  Routes.POST_tasks oid2 null_status one_task = (validation_error, one_task).
Proof.
  apply (create_rejects_missing_or_null oid2 null_status one_task).
  do 5 right. reflexivity.
Defined.

(** X8: [status] is one of the three strings of [StatusEnum], spelled as
    they are: a create body with any other status is answered 422, and
    nothing is stored. *)
Theorem create_rejects_status_outside_enum (fresh : ObjectId) (body : dict)
    (v : value) (c : collection) :
  body !! "status" = Some v ->
  v <> VStr "done" -> v <> VStr "undone" -> v <> VStr "progress" ->
  Routes.POST_tasks fresh body c = (validation_error, c).
Proof.
  intros Hs H1 H2 H3. unfold Routes.POST_tasks.
  rewrite TaskModel_field_rejected; [reflexivity|].
  do 3 right. intros s. unfold TaskModel.status_field.
  rewrite validate_field_no_alias, Hs. intros E.
  apply validate_StatusEnum_Some in E. by destruct s.
Qed.

Lemma create_rejects_status_outside_enum_witness :
  Routes.POST_tasks oid2 bad_status one_task = (validation_error, one_task).
Proof.
  apply (create_rejects_status_outside_enum oid2 bad_status (VStr "Done") one_task);
    [reflexivity | discriminate | discriminate | discriminate].
Defined.

(** X9: the upper bounds of the lengths are enforced: a create body whose
    title has more than 100 characters, or whose description has more than
    500, is answered 422, and nothing is stored. *)
Theorem create_rejects_too_long (fresh : ObjectId) (body : dict) (s : string)
    (c : collection) :
  (body !! "title" = Some (VStr s) /\ (100 < String.length s)%nat) \/
  (body !! "description" = Some (VStr s) /\ (500 < String.length s)%nat) ->
  Routes.POST_tasks fresh body c = (validation_error, c).
Proof.
  intros H. unfold Routes.POST_tasks.
  rewrite TaskModel_field_rejected; [reflexivity|].
  unfold TaskModel.title_field, TaskModel.description_field.
  rewrite !validate_field_no_alias.
  destruct H as [[H Hlen]|[H Hlen]]; rewrite H; [left|right; left];
    intros x E; apply validate_str_length in E; lia.
Qed.

Lemma create_rejects_too_long_witness :
  Routes.POST_tasks oid2 too_long_title one_task = (validation_error, one_task).
Proof.
  apply (create_rejects_too_long oid2 too_long_title long_title one_task).
  left. split; [reflexivity | vm_compute; lia].
Defined.

(** ** The list *)

Section ListFacts.

Lemma list_tasks_Some (c : collection) (ts : list TaskModel.t) :
  mapM TaskModel.model_validate (Mongo.to_list 1000 c) = Some ts ->
  Routes.GET_tasks c =
    ({| status := 200; content_of := JSONTaskCollection (TaskCollection.Build ts) |}, c).
Proof.
  intros E. unfold Routes.GET_tasks, list_tasks, TaskCollection.model_validate.
  by rewrite E.
Qed.

Lemma list_tasks_inv (c : collection) (tc : TaskCollection.t) :
  Routes.GET_tasks c = ({| status := 200; content_of := JSONTaskCollection tc |}, c) ->
  mapM TaskModel.model_validate (Mongo.to_list 1000 c) = Some (TaskCollection.tasks tc).
Proof.
  unfold Routes.GET_tasks, list_tasks, TaskCollection.model_validate.
  destruct (mapM _ _) as [ts|]; cbn; [|discriminate]. by intros [= <-].
Qed.

(** The answer to a valid create that supplies a description. *)
Lemma POST_tasks_with_description (fresh : ObjectId) (body : dict)
    (task : TaskModel.t) (c : collection) :
  TaskModel.model_validate body = Some task ->
  body !! "description" <> None ->
  (- 2 ^ 63 <= TaskModel.priority task < 2 ^ 63)%Z ->
  Mongo.find_one (VObjectId fresh) c = None ->
  TaskModel.model_validate (created_document fresh task) = Some (with_id fresh task) /\
  Routes.POST_tasks fresh body c =
    (created (with_id fresh task), c ++ [created_document fresh task]).
Proof.
  intros Hv Hdesc Hp Hfresh.
  destruct (TaskModel_validated_lengths body task Hv) as [Ht Hd].
  pose proof (created_document_validates fresh task Ht (Hd Hdesc)) as Hback.
  split; [exact Hback|].
  unfold Routes.POST_tasks. rewrite Hv, create_task_inserts by done.
  cbn [mbind option_bind]. by rewrite Hback.
Qed.
End ListFacts.

(** X11: one stored document that does not fit [TaskModel], among the
    first 1000, fails the whole list: the answer is 500, whatever the other
    documents are. *)
Theorem list_fails_on_unfit_document (c : collection) (d : document) :
  d ∈ Mongo.to_list 1000 c ->
  TaskModel.model_validate d = None ->
  Routes.GET_tasks c = (internal_server_error, c).
Proof.
  intros Hin Hd.
  assert (mapM TaskModel.model_validate (Mongo.to_list 1000 c) = None) as E.
  { apply mapM_None, Exists_exists. by exists d. }
  unfold Routes.GET_tasks, list_tasks, TaskCollection.model_validate. by rewrite E.
Qed.

Lemma list_fails_on_unfit_document_witness :
  Routes.GET_tasks (unfit_document :: one_task) =
    (internal_server_error, unfit_document :: one_task).
Proof.
  apply (list_fails_on_unfit_document (unfit_document :: one_task) unfit_document).
  - apply list_elem_of_here.
  - vm_compute. reflexivity.
Defined.

(** Past the first 1000 documents the list does not look. *)
Lemma GET_tasks_beyond_1000 (c l : collection) :
  (1000 <= length c)%nat ->
  Routes.GET_tasks (c ++ l) = ((Routes.GET_tasks c).1, c ++ l).
Proof.
  intros Hlen. unfold Routes.GET_tasks, list_tasks, Mongo.to_list.
  rewrite take_app_le by exact Hlen.
  by destruct (TaskCollection.model_validate (take 1000 c)).
Qed.

(** The thousand creates, served from the empty collection, leave the
    thousand tasks. *)
Lemma byte_of_nat_to_N (n : nat) :
  (n < 256)%nat -> Byte.to_N (byte_of_nat n) = N.of_nat n.
Proof.
  intros Hn. unfold byte_of_nat.
  destruct (Byte.of_N (N.of_nat n)) as [b|] eqn:E; cbn [default].
  - by apply Byte.to_of_N.
  - apply Byte.of_N_None_iff in E. lia.
Qed.

Lemma oid_of_nat_inj (i j : nat) :
  (i < 1000)%nat -> (j < 1000)%nat -> oid_of_nat i = oid_of_nat j -> i = j.
Proof.
  intros Hi Hj H. unfold oid_of_nat in H. apply app_inv_head in H.
  assert (byte_of_nat (i / 256) = byte_of_nat (j / 256) /\
          byte_of_nat (i mod 256) = byte_of_nat (j mod 256)) as [Hhi Hlo]
    by (split; congruence).
  apply (f_equal Byte.to_N) in Hhi, Hlo.
  assert (i / 256 < 256 /\ j / 256 < 256)%nat as [? ?]
    by (split; apply Nat.Div0.div_lt_upper_bound; lia).
  assert (i mod 256 < 256 /\ j mod 256 < 256)%nat as [? ?]
    by (split; apply Nat.mod_upper_bound; lia).
  rewrite !byte_of_nat_to_N in Hhi, Hlo by assumption.
  apply Nat2N.inj in Hhi, Hlo.
  rewrite (Nat.div_mod_eq i 256), (Nat.div_mod_eq j 256). by rewrite Hhi, Hlo.
Qed.

(** Creates of one body under distinct unused ObjectIds append one
    document each, in order. *)
Lemma run_creates (ids : list ObjectId) (c : collection) :
  NoDup ids ->
  Forall (fun o => Mongo.find_one (VObjectId o) c = None) ids ->
  run (map (fun o => PostTasks o buy_milk') ids) c =
    c ++ map (fun o => created_document o milk_task') ids.
Proof.
  revert c. induction ids as [|o ids IH]; intros c Hnd Hnew.
  - cbn. by rewrite app_nil_r.
  - apply NoDup_cons in Hnd as [Ho Hnd]. apply Forall_cons in Hnew as [Hc Hnew].
    assert (Routes.POST_tasks o buy_milk' c =
              (created (with_id o milk_task'), c ++ [created_document o milk_task']))
      as Hpost.
    { apply POST_tasks_with_description;
        [reflexivity | vm_compute; discriminate | vm_compute; split; congruence
        | exact Hc]. }
    unfold run in *. cbn [map foldl tasks_app]. rewrite Hpost. cbn [snd].
    rewrite IH; [by rewrite <- app_assoc | exact Hnd |].
    apply Forall_forall. intros o' Ho'. rewrite find_one_app.
    rewrite (proj1 (Forall_forall _ _) Hnew o' Ho').
    assert (Mongo.matches (VObjectId o') (created_document o milk_task') = false) as ->;
      [|reflexivity].
    apply matches_false. destruct (created_document_lookup o milk_task') as (-> & _).
    intros [= Heq]. subst. contradiction.
Qed.

Lemma run_thousand_creates : run thousand_creates [] = thousand_tasks.
Proof.
  unfold thousand_creates, thousand_tasks.
  rewrite <- (map_map oid_of_nat (fun o => PostTasks o buy_milk')).
  rewrite <- (map_map oid_of_nat (fun o => created_document o milk_task')).
  rewrite run_creates; [reflexivity | |].
  - apply (NoDup_fmap_2_strong oid_of_nat); [|apply NoDup_seq].
    intros i j Hi%elem_of_seq Hj%elem_of_seq. apply oid_of_nat_inj; lia.
  - apply Forall_forall. reflexivity.
Qed.

Lemma GET_tasks_thousand_tasks :
  Routes.GET_tasks thousand_tasks =
    ({| status := 200;
        content_of := JSONTaskCollection
          (TaskCollection.Build
             (map (fun i => with_id (oid_of_nat i) milk_task') (seq 0 1000))) |},
     thousand_tasks).
Proof.
  apply list_tasks_Some. unfold Mongo.to_list, thousand_tasks.
  rewrite take_ge by (rewrite length_map, length_seq; lia).
  apply mapM_Some, Forall2_fmap, Forall_Forall2_diag, Forall_forall.
  intros i _. apply created_document_validates; vm_compute; lia.
Qed.

(** X12: the list has no second page.  When the collection holds 1000
    documents or more and the list is answered 200, a create that is
    answered 201 does not show in the list: the list after it is answered
    200 with the same 1000 tasks as before. *)
Theorem list_ignores_beyond_1000 (fresh : ObjectId) (body : dict)
    (task : TaskModel.t) (c : collection) (tc : TaskCollection.t) :
  TaskModel.model_validate body = Some task ->
  body !! "description" <> None ->
  (- 2 ^ 63 <= TaskModel.priority task < 2 ^ 63)%Z ->
  Mongo.find_one (VObjectId fresh) c = None ->
  (1000 <= length c)%nat ->
  Routes.GET_tasks c = ({| status := 200; content_of := JSONTaskCollection tc |}, c) ->
  exists c',
    Routes.POST_tasks fresh body c = (created (with_id fresh task), c') /\
    length c' = S (length c) /\
    Routes.GET_tasks c' =
      ({| status := 200; content_of := JSONTaskCollection tc |}, c') /\
    length (TaskCollection.tasks tc) = 1000%nat.
Proof.
  intros Hv Hdesc Hp Hfresh Hlen Hlist.
  destruct (POST_tasks_with_description fresh body task c Hv Hdesc Hp Hfresh)
    as [_ Hpost].
  exists (c ++ [created_document fresh task]). split; [exact Hpost|].
  split; [rewrite length_app; cbn [length]; lia|]. split.
  - rewrite GET_tasks_beyond_1000 by exact Hlen. by rewrite Hlist.
  - apply list_tasks_inv, length_mapM in Hlist. rewrite <- Hlist.
    unfold Mongo.to_list. rewrite length_take. lia.
Qed.

Lemma list_ignores_beyond_1000_witness :
  run thousand_creates [] = thousand_tasks /\
  exists c',
    Routes.POST_tasks oid1 buy_milk' thousand_tasks =
      (created (with_id oid1 milk_task'), c') /\
    length c' = S (length thousand_tasks) /\
    Routes.GET_tasks c' =
      ({| status := 200;
          content_of := JSONTaskCollection
            (TaskCollection.Build
               (map (fun i => with_id (oid_of_nat i) milk_task') (seq 0 1000))) |},
       c') /\
    length (TaskCollection.tasks
              (TaskCollection.Build
                 (map (fun i => with_id (oid_of_nat i) milk_task') (seq 0 1000))))
      = 1000%nat.
Proof.
  split; [exact run_thousand_creates|].
  apply (list_ignores_beyond_1000 oid1 buy_milk' milk_task' thousand_tasks).
  - reflexivity.
  - vm_compute. discriminate.
  - vm_compute. split; congruence.
  - vm_compute. reflexivity.
  - vm_compute. lia.
  - exact GET_tasks_thousand_tasks.
Defined.

(** X13: create appends and the list keeps the order: when the list of a
    collection of fewer than 1000 documents is answered 200, then after a
    create that is answered 201 the list is answered 200 with the same
    tasks followed by the new one. *)
Theorem create_then_list (fresh : ObjectId) (body : dict) (task : TaskModel.t)
    (c : collection) (tc : TaskCollection.t) :
  TaskModel.model_validate body = Some task ->
  body !! "description" <> None ->
  (- 2 ^ 63 <= TaskModel.priority task < 2 ^ 63)%Z ->
  Mongo.find_one (VObjectId fresh) c = None ->
  (length c < 1000)%nat ->
  Routes.GET_tasks c = ({| status := 200; content_of := JSONTaskCollection tc |}, c) ->
  exists c',
    Routes.POST_tasks fresh body c = (created (with_id fresh task), c') /\
    Routes.GET_tasks c' =
      ({| status := 200;
          content_of := JSONTaskCollection
            (TaskCollection.Build (TaskCollection.tasks tc ++ [with_id fresh task])) |},
       c').
Proof.
  intros Hv Hdesc Hp Hfresh Hlen Hlist.
  destruct (POST_tasks_with_description fresh body task c Hv Hdesc Hp Hfresh)
    as [Hback Hpost].
  exists (c ++ [created_document fresh task]). split; [exact Hpost|].
  apply list_tasks_inv in Hlist. apply list_tasks_Some.
  unfold Mongo.to_list in *.
  rewrite take_ge in Hlist by lia.
  rewrite take_ge by (rewrite length_app; cbn [length]; lia).
  apply mapM_Some. apply mapM_Some in Hlist.
  apply Forall2_app; [exact Hlist|]. by apply Forall2_cons.
Qed.

Lemma create_then_list_witness :
  exists c',
    Routes.POST_tasks oid2 buy_milk' one_task = (created (with_id oid2 milk_task'), c') /\
    Routes.GET_tasks c' =
      ({| status := 200;
          content_of := JSONTaskCollection
            (TaskCollection.Build ([with_id oid1 milk_task'] ++ [with_id oid2 milk_task'])) |},
       c').
Proof.
  apply (create_then_list oid2 buy_milk' milk_task' one_task
           (TaskCollection.Build [with_id oid1 milk_task']));
    [ reflexivity | vm_compute; discriminate | vm_compute; split; congruence
    | vm_compute; reflexivity | vm_compute; lia | vm_compute; reflexivity ].
Defined.

(** ** An id that is well formed and not stored *)

(** X14: for an id that [ObjectId] accepts and no stored document has, GET
    and DELETE are answered 404 with the detail "Task <id> not found", and
    so is PUT with a valid body that has at least one field to write (with
    a priority, if any, that fits 8 bytes); the collection is left as it
    was. *)
Theorem missing_id_is_404 (id : string) (o : ObjectId) (c : collection) :
  Bson.ObjectId_of_str id = Some o ->
  Mongo.find_one (VObjectId o) c = None ->
  Routes.GET_task id c = (not_found_response id, c) /\
  Routes.DELETE_task id c = (not_found_response id, c) /\
  (forall (body : dict) (task : UpdateTaskModel.t),
     UpdateTaskModel.model_validate body = Some task ->
     (1 <= size (update_fields task))%nat ->
     Mongo.encodable (update_fields task) = true ->
     Routes.PUT_task id body c = (not_found_response id, c)).
Proof.
  intros Ho Hnone. split; [|split].
  - unfold Routes.GET_task, show_task. by rewrite Ho, Hnone.
  - by apply (delete_missing id o).
  - intros body task Hv Hn Henc. apply Nat.leb_le in Hn.
    unfold Routes.PUT_task. rewrite Hv, (update_task_nonempty id o) by done.
    unfold Mongo.find_one_and_update. by rewrite Henc, Hnone.
Qed.

Lemma missing_id_is_404_witness :
  Routes.GET_task oid2_str one_task = (not_found_response oid2_str, one_task) /\
  Routes.DELETE_task oid2_str one_task = (not_found_response oid2_str, one_task) /\
  Routes.PUT_task oid2_str priority_5 one_task = (not_found_response oid2_str, one_task).
Proof.
  destruct (missing_id_is_404 oid2_str oid2 one_task) as (Hget & Hdel & Hput);
    [reflexivity | vm_compute; reflexivity |].
  split; [exact Hget|]. split; [exact Hdel|].
  apply (Hput priority_5 (UpdateTaskModel.Build None None None (Some 5%Z) None));
    [vm_compute; reflexivity | vm_compute; lia | vm_compute; reflexivity].
Defined.

(** ** What update reads of its body *)

Section UpdateBody.
Import Pydantic.

(** For a field that is optional with default None, null and absent are
    the same input. *)
Lemma validate_field_null_absent {A} (name : string) (f : FieldInfo (option A))
    (validate : list kwarg -> value -> option A) (k : string) (data : dict) :
  default f = Some None ->
  validate_field false name f (validate_Optional validate) (<[k := VNone]> data) =
  validate_field false name f (validate_Optional validate) (delete k data).
Proof.
  intros Hdef. unfold validate_field, field_input.
  destruct (alias f) as [a|].
  - destruct (decide (k = a)) as [->|Hne].
    + by rewrite lookup_insert_eq, lookup_delete_eq, Hdef.
    + by rewrite lookup_insert_ne, lookup_delete_ne.
  - destruct (decide (k = name)) as [->|Hne].
    + by rewrite lookup_insert_eq, lookup_delete_eq, Hdef.
    + by rewrite lookup_insert_ne, lookup_delete_ne.
Qed.

Lemma UpdateTaskModel_field_rejected (data : dict) :
  (forall t, validate_field false "title" UpdateTaskModel.title_field
               (validate_Optional validate_str) data <> Some t) \/
  (forall d, validate_field false "description" UpdateTaskModel.description_field
               (validate_Optional validate_str) data <> Some d) \/
  (forall s, validate_field false "status" UpdateTaskModel.status_field
               (validate_Optional validate_StatusEnum) data <> Some s) ->
  UpdateTaskModel.model_validate data = None.
Proof.
  intros H. destruct (UpdateTaskModel.model_validate data) as [t|] eqn:E; [|reflexivity].
  apply UpdateTaskModel_validate_Some in E as (_ & Et & Ed & _ & Es).
  destruct H as [H|[H|H]]; exfalso; eapply H; eassumption.
Qed.

Lemma validate_Optional_str_length (s : string) (x : option string) (lo hi : nat) :
  validate_Optional validate_str [min_length lo; max_length hi] (VStr s) = Some x ->
  (lo <= String.length s <= hi)%nat.
Proof.
  cbn [validate_Optional]. destruct (validate_str _ _) as [s'|] eqn:E; [|discriminate].
  intros _. by apply validate_str_length in E as [_ ?].
Qed.
Lemma validate_Optional_StatusEnum (v : value) (x : option StatusEnum) :
  validate_Optional validate_StatusEnum [] v = Some x ->
  v = VNone \/ v = VStr "done" \/ v = VStr "undone" \/ v = VStr "progress".
Proof.
  intros H. destruct (decide (v = VNone)) as [->|Hv]; [by left|]. right.
  assert (validate_Optional validate_StatusEnum [] v = Some <$> validate_StatusEnum [] v)
    as E by (by destruct v).
  rewrite E in H.
  destruct (validate_StatusEnum [] v) as [st|] eqn:Est; [|discriminate].
  apply validate_StatusEnum_Some in Est as ->. destruct st; auto.
Qed.
End UpdateBody.

(** X17: in the body of an update a null field is an absent field: a PUT
    with null under a key gets the same answer, and leaves the same
    collection, as the PUT without that key. *)
Theorem update_null_is_absent (id : string) (k : string) (body : dict) (c : collection) :
  Routes.PUT_task id (<[k := VNone]> body) c = Routes.PUT_task id (delete k body) c.
Proof.
  assert (UpdateTaskModel.model_validate (<[k := VNone]> body)
          = UpdateTaskModel.model_validate (delete k body)) as E.
  { unfold UpdateTaskModel.model_validate, UpdateTaskModel.populate_by_name.
    by rewrite !validate_field_null_absent. }
  unfold Routes.PUT_task. by rewrite E.
Qed.

(** X18: the fields of an update are validated by the rules of create: a
    PUT whose title is shorter than 3 or longer than 100 characters, whose
    description is shorter than 3 or longer than 500, or whose status is
    neither null nor one of the three strings, is answered 422, for every
    id, and nothing is written. *)
Theorem update_rejects_invalid_fields (id : string) (body : dict) (c : collection) :
  (exists s, body !! "title" = Some (VStr s) /\
             ((String.length s < 3)%nat \/ (100 < String.length s)%nat)) \/
  (exists s, body !! "description" = Some (VStr s) /\
             ((String.length s < 3)%nat \/ (500 < String.length s)%nat)) \/
  (exists v, body !! "status" = Some v /\ v <> VNone /\
             v <> VStr "done" /\ v <> VStr "undone" /\ v <> VStr "progress") ->
  Routes.PUT_task id body c = (validation_error, c).
Proof.
  intros H. unfold Routes.PUT_task.
  rewrite UpdateTaskModel_field_rejected; [reflexivity|].
  unfold UpdateTaskModel.title_field, UpdateTaskModel.description_field,
    UpdateTaskModel.status_field.
  rewrite !validate_field_no_alias.
  destruct H as [(s & -> & Hs)|[(s & -> & Hs)|(v & -> & Hv & H1 & H2 & H3)]].
  - left. intros x E. apply validate_Optional_str_length in E. lia.
  - right; left. intros x E. apply validate_Optional_str_length in E. lia.
  - do 2 right. intros x E. apply validate_Optional_StatusEnum in E.
    destruct E as [E|[E|[E|E]]]; congruence.
Qed.

Lemma update_rejects_invalid_fields_witness :
  Routes.PUT_task oid1_str short_title_update one_task = (validation_error, one_task).
Proof.
  apply (update_rejects_invalid_fields oid1_str short_title_update one_task).
  left. exists "ab". split; [reflexivity | left; vm_compute; lia].
Defined.

(** ** What update writes *)

Section UpdateWrite.
Import Pydantic.

Lemma update_fields_key (task : UpdateTaskModel.t) (k : string) (v : value) :
  dumped_update task !! k = Some v ->
  update_fields task !! k = if decide (v = VNone) then None else Some v.
Proof.
  intros H. unfold update_fields.
  rewrite UpdateTaskModel_dump, map_lookup_filter, H. cbn [mbind option_bind snd].
  destruct (decide (v = VNone)) as [->|Hv]; by case_guard.
Qed.

Lemma update_fields_Optional {A} (task : UpdateTaskModel.t) (k : string)
    (dump : A -> value) (o : option A) :
  dumped_update task !! k = Some (dump_Optional dump o) ->
  (forall a, dump a <> VNone) ->
  update_fields task !! k = dump <$> o.
Proof.
  intros H Hd. rewrite (update_fields_key task k _ H).
  destruct o as [a|]; cbn [dump_Optional fmap option_fmap option_map].
  - by rewrite decide_False.
  - by rewrite decide_True.
Qed.

Lemma update_fields_lookups (task : UpdateTaskModel.t) :
  update_fields task !! "_id" = VStr <$> UpdateTaskModel.id task /\
  update_fields task !! "title" = VStr <$> UpdateTaskModel.title task /\
  update_fields task !! "description" = VStr <$> UpdateTaskModel.description task /\
  update_fields task !! "priority" = VInt <$> UpdateTaskModel.priority task /\
  update_fields task !! "status" =
    (fun s => VStr (StatusEnum_value s)) <$> UpdateTaskModel.status task.
Proof. repeat split; by apply update_fields_Optional. Qed.

Lemma update_fields_other (task : UpdateTaskModel.t) (k : string) :
  k ∉ ["_id"; "title"; "description"; "priority"; "status"] ->
  update_fields task !! k = None.
Proof.
  intros Hk. unfold update_fields. apply map_lookup_filter_None. left.
  rewrite UpdateTaskModel_dump. unfold dumped_update.
  rewrite !lookup_insert_ne by set_solver. apply lookup_empty.
Qed.

Lemma encodable_update_fields (task : UpdateTaskModel.t) :
  (forall p, UpdateTaskModel.priority task = Some p -> (- 2 ^ 63 <= p < 2 ^ 63)%Z) ->
  Mongo.encodable (update_fields task) = true.
Proof.
  intros Hp. unfold Mongo.encodable. apply bool_decide_eq_true.
  intros k v Hkv.
  destruct (decide (k = "priority")) as [->|Hk].
  - destruct (update_fields_lookups task) as (_ & _ & _ & E & _). rewrite E in Hkv.
    destruct (UpdateTaskModel.priority task) as [p|] eqn:Ep;
      cbn [fmap option_fmap option_map] in Hkv; [|congruence].
    injection Hkv as <-. cbn [Mongo.encodable_value].
    specialize (Hp p eq_refl). apply andb_true_iff.
    split; [apply Z.leb_le|apply Z.ltb_lt]; lia.
  - apply update_fields_lookup in Hkv as [Hkv _].
    rewrite UpdateTaskModel_dump in Hkv. unfold dumped_update in Hkv.
    rewrite !lookup_insert_Some, lookup_empty in Hkv.
    repeat match type of Hkv with
           | _ \/ _ => destruct Hkv as [[<- <-]|[_ Hkv]]
           end; try congruence;
      unfold dump_Optional; by repeat case_match.
Qed.

(** A body without [_id] gives a task without id. *)
Lemma UpdateTaskModel_no_id (body : dict) (task : UpdateTaskModel.t) :
  UpdateTaskModel.model_validate body = Some task -> body !! "_id" = None ->
  UpdateTaskModel.id task = None.
Proof.
  intros Hv Hb. apply UpdateTaskModel_validate_Some in Hv as (Hid & _).
  unfold validate_field, field_input, UpdateTaskModel.id_field in Hid.
  cbn [alias default] in Hid. rewrite Hb in Hid. congruence.
Qed.

(** What validation tells about the fields of an update. *)
Lemma UpdateTaskModel_validated_lengths (body : dict) (task : UpdateTaskModel.t) :
  UpdateTaskModel.model_validate body = Some task ->
  (forall s, UpdateTaskModel.title task = Some s ->
             (3 <= String.length s <= 100)%nat) /\
  (forall s, UpdateTaskModel.description task = Some s ->
             (3 <= String.length s <= 500)%nat).
Proof.
  intros Hv. apply UpdateTaskModel_validate_Some in Hv as (_ & Ht & Hd & _).
  unfold UpdateTaskModel.title_field in Ht.
  unfold UpdateTaskModel.description_field in Hd.
  rewrite validate_field_no_alias in Ht, Hd. split; intros s Hs.
  - rewrite Hs in Ht. destruct (body !! "title") as [[]|]; try discriminate.
    cbn [validate_Optional] in Ht.
    destruct (validate_str _ _) as [s'|] eqn:E; [|discriminate].
    apply validate_str_length in E as [-> ?]. by injection Ht as ->.
  - rewrite Hs in Hd. destruct (body !! "description") as [[]|]; try discriminate.
    cbn [validate_Optional] in Hd.
    destruct (validate_str _ _) as [s'|] eqn:E; [|discriminate].
    apply validate_str_length in E as [-> ?]. by injection Hd as ->.
Qed.

(** The write of an update that has fields, no [_id] among them, on a
    stored document. *)
Lemma update_task_writes (id : string) (o : ObjectId) (body : dict)
    (task : UpdateTaskModel.t) (c : collection) (d : document) :
  Bson.ObjectId_of_str id = Some o ->
  Mongo.find_one (VObjectId o) c = Some d ->
  UpdateTaskModel.model_validate body = Some task ->
  body !! "_id" = None ->
  (1 <= size (update_fields task))%nat ->
  (forall p, UpdateTaskModel.priority task = Some p -> (- 2 ^ 63 <= p < 2 ^ 63)%Z) ->
  Routes.PUT_task id body c =
    (update_response (update_fields task ∪ d),
     Mongo.replace_one (VObjectId o) (update_fields task ∪ d) c) /\
  (update_fields task ∪ d) !! "_id" = Some (VObjectId o).
Proof.
  intros Ho Hd Hv Hb Hn Hp. apply Nat.leb_le in Hn.
  assert (update_fields task !! "_id" = None) as Hnoid.
  { destruct (update_fields_lookups task) as (-> & _).
    by rewrite (UpdateTaskModel_no_id body task Hv Hb). }
  split.
  - unfold Routes.PUT_task. rewrite Hv, (update_task_nonempty id o) by assumption.
    unfold Mongo.find_one_and_update.
    rewrite encodable_update_fields by exact Hp. cbn [negb]. rewrite Hd, Hnoid.
    unfold update_response.
    destruct (UpdateTaskModel.model_validate (update_fields task ∪ d)); reflexivity.
  - rewrite lookup_union_r by exact Hnoid. apply find_one_Some in Hd as [_ Hd].
    exact Hd.
Qed.

(** The document after the write, key by key. *)
Lemma update_union_lookups (task : UpdateTaskModel.t) (d : document) :
  let d' := update_fields task ∪ d in
  d' !! "title" = match UpdateTaskModel.title task with
                  | Some s => Some (VStr s)
                  | None => d !! "title"
                  end /\
  d' !! "description" = match UpdateTaskModel.description task with
                        | Some s => Some (VStr s)
                        | None => d !! "description"
                        end /\
  d' !! "priority" = match UpdateTaskModel.priority task with
                     | Some p => Some (VInt p)
                     | None => d !! "priority"
                     end /\
  d' !! "status" = match UpdateTaskModel.status task with
                   | Some s => Some (VStr (StatusEnum_value s))
                   | None => d !! "status"
                   end /\
  (forall k : string, k ∉ ["_id"; "title"; "description"; "priority"; "status"] ->
     d' !! k = d !! k).
Proof.
  intros d'. unfold d'.
  destruct (update_fields_lookups task) as (_ & Ht & Hd & Hp & Hs).
  repeat split.
  - destruct (UpdateTaskModel.title task); cbn in Ht;
      [by apply lookup_union_Some_l | by apply lookup_union_r].
  - destruct (UpdateTaskModel.description task); cbn in Hd;
      [by apply lookup_union_Some_l | by apply lookup_union_r].
  - destruct (UpdateTaskModel.priority task); cbn in Hp;
      [by apply lookup_union_Some_l | by apply lookup_union_r].
  - destruct (UpdateTaskModel.status task); cbn in Hs;
      [by apply lookup_union_Some_l | by apply lookup_union_r].
  - intros k Hk. apply lookup_union_r. by apply update_fields_other.
Qed.
End UpdateWrite.

(** X19: an update writes the fields its body supplies and no other.  For
    a stored document [d] and a valid body without [_id] that has at least
    one non-null field (and a priority, if any, that fits 8 bytes), the PUT
    replaces [d], in place, by a document in which each of title,
    description, priority and status is the supplied value, or the one of
    [d] when the body has none, and every other key, [_id] among them, is as
    in [d]. *)
Theorem update_writes_supplied_fields (id : string) (o : ObjectId) (body : dict)
    (task : UpdateTaskModel.t) (c : collection) (d : document) :
  Bson.ObjectId_of_str id = Some o ->
  Mongo.find_one (VObjectId o) c = Some d ->
  UpdateTaskModel.model_validate body = Some task ->
  body !! "_id" = None ->
  (1 <= size (update_fields task))%nat ->
  (forall p, UpdateTaskModel.priority task = Some p -> (- 2 ^ 63 <= p < 2 ^ 63)%Z) ->
  exists d' c1 c2,
    c = c1 ++ d :: c2 /\
    Routes.PUT_task id body c = (update_response d', c1 ++ d' :: c2) /\
    d' !! "title" = match UpdateTaskModel.title task with
                    | Some s => Some (VStr s)
                    | None => d !! "title"
                    end /\
    d' !! "description" = match UpdateTaskModel.description task with
                          | Some s => Some (VStr s)
                          | None => d !! "description"
                          end /\
    d' !! "priority" = match UpdateTaskModel.priority task with
                       | Some p => Some (VInt p)
                       | None => d !! "priority"
                       end /\
    d' !! "status" = match UpdateTaskModel.status task with
                     | Some s => Some (VStr (StatusEnum_value s))
                     | None => d !! "status"
                     end /\
    d' !! "_id" = d !! "_id" /\
    (forall k : string, k ∉ ["_id"; "title"; "description"; "priority"; "status"] ->
       d' !! k = d !! k).
Proof.
  intros Ho Hd Hv Hb Hn Hp.
  destruct (update_task_writes id o body task c d Ho Hd Hv Hb Hn Hp) as [Hput Hid].
  destruct (find_one_split (VObjectId o) d (update_fields task ∪ d) c Hd)
    as (c1 & c2 & Hc & Hr).
  destruct (update_union_lookups task d) as (Lt & Ld & Lp & Ls & Lo).
  exists (update_fields task ∪ d), c1, c2.
  clear Hp.
  split; [exact Hc|]. split; [by rewrite <- Hr|].
  split; [exact Lt|]. split; [exact Ld|]. split; [exact Lp|]. split; [exact Ls|].
  split; [|exact Lo]. rewrite Hid. by apply find_one_Some in Hd as [_ ?].
Qed.

Lemma update_writes_supplied_fields_witness :
  exists d' c1 c2,
    one_task = c1 ++ created_document oid1 milk_task' :: c2 /\
    Routes.PUT_task oid1_str done_update one_task = (update_response d', c1 ++ d' :: c2) /\
    d' !! "title" = Some (VStr "Buy oat milk") /\
    d' !! "description" = created_document oid1 milk_task' !! "description" /\
    d' !! "priority" = created_document oid1 milk_task' !! "priority" /\
    d' !! "status" = Some (VStr "done") /\
    d' !! "_id" = created_document oid1 milk_task' !! "_id" /\
    (forall k : string, k ∉ ["_id"; "title"; "description"; "priority"; "status"] ->
       d' !! k = created_document oid1 milk_task' !! k).
Proof.
  apply (update_writes_supplied_fields oid1_str oid1 done_update done_update_task
           one_task (created_document oid1 milk_task'));
    [ reflexivity | vm_compute; reflexivity | vm_compute; reflexivity | reflexivity
    | vm_compute; lia | discriminate ].
Defined.

(** ** Update, then get; delete, then get *)

Section AfterWrite.
Import Pydantic.

Lemma GET_task_inv (id : string) (c : collection) (t : TaskModel.t) :
  Routes.GET_task id c = (ok_task t, c) ->
  exists o d, Bson.ObjectId_of_str id = Some o /\
              Mongo.find_one (VObjectId o) c = Some d /\
              TaskModel.model_validate d = Some t.
Proof.
  unfold Routes.GET_task, show_task, ok_task.
  destruct (Bson.ObjectId_of_str id) as [o|]; [|discriminate].
  destruct (Mongo.find_one (VObjectId o) c) as [d|] eqn:Hd; [|discriminate].
  destruct (TaskModel.model_validate d) as [t'|] eqn:Ht; [|discriminate].
  intros [= ->]. by exists o, d.
Qed.

Lemma validate_Optional_of_Some {A} (validate : list kwarg -> value -> option A)
    (kw : list kwarg) (v : value) (a : A) :
  validate kw VNone = None -> validate kw v = Some a ->
  validate_Optional validate kw v = Some (Some a).
Proof.
  intros Hnone Hv. destruct v; cbn [validate_Optional]; [congruence|..];
    by rewrite Hv.
Qed.

Lemma UpdateTaskModel_validate_id (data : dict) :
  is_Some (validate_field false "id" UpdateTaskModel.id_field
             (validate_Optional validate_PyObjectId) data).
Proof.
  unfold validate_field. destruct (field_input _ _ _ _) as [v|]; [|by eexists].
  destruct (decide (v = VNone)) as [->|Hv]; [by eexists|].
  cbn [kwargs UpdateTaskModel.id_field]. rewrite validate_id_not_None by exact Hv.
  by eexists.
Qed.

(** A document that fits [TaskModel] fits [UpdateTaskModel]. *)
Lemma TaskModel_fits_UpdateTaskModel (d : document) (t : TaskModel.t) :
  TaskModel.model_validate d = Some t -> is_Some (UpdateTaskModel.model_validate d).
Proof.
  intros H. apply TaskModel_validate_Some in H as (_ & Ht & Hd & Hp & Hs).
  unfold TaskModel.title_field, TaskModel.description_field,
    TaskModel.priority_field, TaskModel.status_field in *.
  rewrite validate_field_no_alias in Ht. rewrite validate_field_no_alias in Hd.
  rewrite validate_field_no_alias in Hp. rewrite validate_field_no_alias in Hs.
  destruct (UpdateTaskModel_validate_id d) as [i Hi].
  assert (exists x, validate_field false "title" UpdateTaskModel.title_field
                      (validate_Optional validate_str) d = Some x) as [ti Hti].
  { unfold UpdateTaskModel.title_field. rewrite validate_field_no_alias.
    destruct (d !! "title") as [v|]; [|by eexists].
    eexists. by apply validate_Optional_of_Some. }
  assert (exists x, validate_field false "description" UpdateTaskModel.description_field
                      (validate_Optional validate_str) d = Some x) as [de Hde].
  { unfold UpdateTaskModel.description_field. rewrite validate_field_no_alias.
    destruct (d !! "description") as [v|]; [|by eexists].
    eexists. by apply validate_Optional_of_Some. }
  assert (exists x, validate_field false "priority" UpdateTaskModel.priority_field
                      (validate_Optional validate_int) d = Some x) as [pr Hpr].
  { unfold UpdateTaskModel.priority_field. rewrite validate_field_no_alias.
    destruct (d !! "priority") as [v|]; [|by eexists].
    eexists. by apply validate_Optional_of_Some. }
  assert (exists x, validate_field false "status" UpdateTaskModel.status_field
                      (validate_Optional validate_StatusEnum) d = Some x) as [st Hst].
  { unfold UpdateTaskModel.status_field. rewrite validate_field_no_alias.
    destruct (d !! "status") as [v|]; [|by eexists].
    eexists. by apply validate_Optional_of_Some. }
  exists (UpdateTaskModel.Build i ti de pr st).
  by apply UpdateTaskModel_validate_Some.
Qed.

(** The document after the write fits [TaskModel] when the one before
    did, as the task with the fields of the update written over. *)
Lemma TaskModel_validate_updated (task : UpdateTaskModel.t) (d : document)
    (t : TaskModel.t) (i : value) :
  TaskModel.model_validate d = Some t ->
  d !! "_id" = Some i ->
  update_fields task !! "_id" = None ->
  (forall s, UpdateTaskModel.title task = Some s ->
             (3 <= String.length s <= 100)%nat) ->
  (forall s, UpdateTaskModel.description task = Some s ->
             (3 <= String.length s <= 500)%nat) ->
  TaskModel.model_validate (update_fields task ∪ d) = Some (apply_update task t).
Proof.
  intros H Hid Hnoid Hlt Hld.
  apply TaskModel_validate_Some in H as (Hi & Ht & Hd & Hp & Hs).
  apply TaskModel_validate_Some.
  destruct (update_union_lookups task d) as (Lt & Ld & Lp & Ls & _).
  unfold apply_update; cbn [TaskModel.id TaskModel.title TaskModel.description
                              TaskModel.priority TaskModel.status].
  unfold TaskModel.title_field, TaskModel.description_field,
    TaskModel.priority_field, TaskModel.status_field in *.
  rewrite validate_field_no_alias in Ht. rewrite validate_field_no_alias in Hd.
  rewrite validate_field_no_alias in Hp. rewrite validate_field_no_alias in Hs.
  rewrite !validate_field_no_alias, Lt, Ld, Lp, Ls.
  split; [|split; [|split; [|split]]].
  - unfold validate_field, field_input, TaskModel.id_field in *.
    cbn [alias kwargs default] in *.
    rewrite lookup_union_r by exact Hnoid. by rewrite Hid in *.
  - destruct (UpdateTaskModel.title task) as [s|]; [|exact Ht].
    apply validate_str_length. split; [reflexivity|by apply Hlt].
  - destruct (UpdateTaskModel.description task) as [s|]; [|exact Hd].
    apply validate_str_length. split; [reflexivity|by apply Hld].
  - destruct (UpdateTaskModel.priority task) as [p|]; [reflexivity|exact Hp].
  - destruct (UpdateTaskModel.status task) as [s|]; [|exact Hs].
    apply validate_StatusEnum_value.
Qed.

Lemma remove_one_split v (d : document) (c : collection) :
  Mongo.find_one v c = Some d ->
  exists c1 c2, c = c1 ++ d :: c2 /\ Mongo.remove_one v c = c1 ++ c2.
Proof.
  induction c as [|x c IH]; cbn [Mongo.find_one Mongo.remove_one]; [discriminate|].
  destruct (Mongo.matches v x) eqn:E.
  - intros [= ->]. by exists [], c.
  - intros H. destruct (IH H) as (c1 & c2 & -> & ->). by exists (x :: c1), c2.
Qed.
End AfterWrite.

(** X20: update, then get.  When GET of an id is answered 200 with a task,
    a PUT on that id with a valid body without [_id] that has at least one
    non-null field (and a priority, if any, that fits 8 bytes) is answered
    200, and the GET after it is answered 200 with the same task in which
    the supplied fields have their new values: same id, nothing else
    changed. *)
Theorem update_then_get (id : string) (body : dict) (task : UpdateTaskModel.t)
    (c : collection) (t : TaskModel.t) :
  Routes.GET_task id c = (ok_task t, c) ->
  UpdateTaskModel.model_validate body = Some task ->
  body !! "_id" = None ->
  (1 <= size (update_fields task))%nat ->
  (forall p, UpdateTaskModel.priority task = Some p -> (- 2 ^ 63 <= p < 2 ^ 63)%Z) ->
  exists c',
    (Routes.PUT_task id body c).2 = c' /\
    status (Routes.PUT_task id body c).1 = 200%Z /\
    Routes.GET_task id c' = (ok_task (apply_update task t), c').
Proof.
  intros Hget Hv Hb Hn Hp.
  destruct (GET_task_inv id c t Hget) as (o & d & Ho & Hd & Ht).
  destruct (update_task_writes id o body task c d Ho Hd Hv Hb Hn Hp) as [Hput Hid].
  destruct (UpdateTaskModel_validated_lengths body task Hv) as [Hlt Hld].
  assert (update_fields task !! "_id" = None) as Hnoid.
  { destruct (update_fields_lookups task) as (-> & _).
    by rewrite (UpdateTaskModel_no_id body task Hv Hb). }
  clear Hp.
  assert (TaskModel.model_validate (update_fields task ∪ d) = Some (apply_update task t))
    as Hback.
  { apply find_one_Some in Hd as [_ Hd].
    by apply (TaskModel_validate_updated task d t (VObjectId o)). }
  exists (Mongo.replace_one (VObjectId o) (update_fields task ∪ d) c).
  rewrite Hput. split; [reflexivity|]. split.
  - cbn [fst]. unfold update_response.
    by destruct (TaskModel_fits_UpdateTaskModel _ _ Hback) as [tu ->].
  - unfold Routes.GET_task, show_task.
    by rewrite Ho, (find_one_replace_one _ d), Hback.
Qed.

Lemma update_then_get_witness :
  exists c',
    (Routes.PUT_task oid1_str done_update one_task).2 = c' /\
    status (Routes.PUT_task oid1_str done_update one_task).1 = 200%Z /\
    Routes.GET_task oid1_str c' =
      (ok_task (apply_update done_update_task (with_id oid1 milk_task')), c').
Proof.
  apply (update_then_get oid1_str done_update done_update_task one_task
           (with_id oid1 milk_task'));
    [ vm_compute; reflexivity | vm_compute; reflexivity | reflexivity
    | vm_compute; lia | discriminate ].
Defined.

(** X21: delete, then get.  With unique ids, a DELETE of a stored id is
    answered 204 and takes exactly that document out of the collection;
    the GET of the id after it is answered 404, and the GET of every other
    well-formed id is answered as before. *)
Theorem delete_then_get (id : string) (o : ObjectId) (c : collection) (d : document) :
  Bson.ObjectId_of_str id = Some o ->
  Mongo.find_one (VObjectId o) c = Some d ->
  unique_ids c ->
  exists c1 c2,
    c = c1 ++ d :: c2 /\
    Routes.DELETE_task id c = (no_content, c1 ++ c2) /\
    Routes.GET_task id (c1 ++ c2) = (not_found_response id, c1 ++ c2) /\
    (forall (id' : string) (o' : ObjectId),
       Bson.ObjectId_of_str id' = Some o' -> o' <> o ->
       Routes.GET_task id' (c1 ++ c2) = ((Routes.GET_task id' c).1, c1 ++ c2)).
Proof.
  intros Ho Hd Hu.
  destruct (remove_one_split (VObjectId o) d c Hd) as (c1 & c2 & Hc & Hr).
  exists c1, c2. rewrite <- Hr. split; [exact Hc|].
  split; [by apply (delete_found id o c d)|]. split.
  - unfold Routes.GET_task, show_task. by rewrite Ho, find_one_remove_one.
  - intros id' o' Ho' Hne. unfold Routes.GET_task, show_task.
    rewrite Ho', find_one_remove_one_ne by congruence.
    destruct (Mongo.find_one (VObjectId o') c) as [d'|]; [|reflexivity].
    by destruct (TaskModel.model_validate d').
Qed.

Lemma delete_then_get_witness :
  exists c1 c2,
    one_task = c1 ++ created_document oid1 milk_task' :: c2 /\
    Routes.DELETE_task oid1_str one_task = (no_content, c1 ++ c2) /\
    Routes.GET_task oid1_str (c1 ++ c2) = (not_found_response oid1_str, c1 ++ c2) /\
    (forall (id' : string) (o' : ObjectId),
       Bson.ObjectId_of_str id' = Some o' -> o' <> oid1 ->
       Routes.GET_task id' (c1 ++ c2) = ((Routes.GET_task id' one_task).1, c1 ++ c2)).
Proof.
  apply (delete_then_get oid1_str oid1 one_task (created_document oid1 milk_task'));
    [reflexivity | vm_compute; reflexivity |].
  unfold unique_ids. apply NoDup_cons. split; [apply not_elem_of_nil | apply NoDup_nil_2].
Defined.

(** ** The size of the collection *)

(** X22: a request changes the number of stored documents by at most one,
    and only in one direction: a POST adds one document or none, a DELETE
    removes one or none, and a PUT or a GET leaves the number as it is. *)
Theorem collection_size (r : request) (c : collection) :
  match r with
  | PostTasks _ _ =>
      length (tasks_app r c).2 = length c \/ length (tasks_app r c).2 = S (length c)
  | DeleteTask _ =>
      length (tasks_app r c).2 = length c \/ S (length (tasks_app r c).2) = length c
  | _ => length (tasks_app r c).2 = length c
  end.
Proof.
  destruct r as [fresh body| |id|id body|id]; cbn [tasks_app].
  - unfold Routes.POST_tasks.
    destruct (TaskModel.model_validate body) as [task|]; [|by left].
    unfold create_task, Mongo.insert_one.
    destruct (negb _); [by left|].
    destruct (Mongo.find_one _ c); [by left|]. right.
    destruct (mbind _ _); cbn [snd]; rewrite length_app; cbn [length]; lia.
  - unfold Routes.GET_tasks. by destruct (list_tasks c).
  - unfold Routes.GET_task. destruct (show_task id c) as [d|e]; [|reflexivity].
    by destruct (TaskModel.model_validate d).
  - unfold Routes.PUT_task.
    destruct (UpdateTaskModel.model_validate body) as [task|]; [|reflexivity].
    unfold update_task.
    destruct (Nat.leb 1 (size (update_fields task))).
    + destruct (Bson.ObjectId_of_str id) as [o|]; [|reflexivity].
      unfold Mongo.find_one_and_update.
      destruct (negb _); [reflexivity|].
      destruct (Mongo.find_one (VObjectId o) c) as [d|]; [|reflexivity].
      destruct (update_fields task !! "_id") as [i|].
      * destruct (bool_decide _); [|reflexivity].
        destruct (UpdateTaskModel.model_validate _); cbn [snd];
          apply length_replace_one.
      * destruct (UpdateTaskModel.model_validate _); cbn [snd];
          apply length_replace_one.
    + destruct (Mongo.find_one (VStr id) c) as [d|]; [|reflexivity].
      by destruct (UpdateTaskModel.model_validate d).
  - unfold Routes.DELETE_task, delete_task, Mongo.delete_one.
    destruct (Bson.ObjectId_of_str id) as [o|]; [|by left].
    destruct (Mongo.find_one (VObjectId o) c) as [d|] eqn:Hd; cbn; [|by left].
    right. destruct (remove_one_split _ _ _ Hd) as (c1 & c2 & -> & ->).
    rewrite !length_app. cbn [length]. lia.
Qed.
